(** * grid-challenge: coordinate transforms, snapping, collisions, history

    A shallow embedding of the layout engine of the interactive grid
    (TypeScript), one module per source file, followed by the properties
    of the specification that were checked against it.

    Numbers.  Grid cells (the results of [Math.round], box coordinates,
    counters) are integers [Z].  Pixel quantities are modelled twice: as
    exact rationals [Q], where a property turns on the integer logic
    around the arithmetic (clamps, guards, frame conditions), and as IEEE
    754 binary64 numbers (module [Binary64]), where it turns on the value
    a product or quotient rounds to, as the round trip does.  In the
    rational model NaN, the infinities and binary rounding error are
    absent, and divisions are only reasoned about where the divisor is
    not zero. *)

From Stdlib Require Import ZArith QArith Qround Lqa Lia Bool.
From Stdlib Require PrimFloat SpecFloat FloatOps Uint63.
From stdpp Require Import gmap strings list pretty.

Local Open Scope Z_scope.

(** ** The JavaScript primitives the sources use *)

Module JS.

(** [Math.round(x)]: the nearest integer, ties towards plus infinity. *)
Definition Math_round (x : Q) : Z := Qfloor (x + (1 # 2))%Q.

(** [Math.max(a, b)] and [Math.min(a, b)] on integers. *)
Definition Math_max (a b : Z) : Z := Z.max a b.
Definition Math_min (a b : Z) : Z := Z.min a b.

(** [Math.max(a, b)] and [Math.min(a, b)] on pixel quantities. *)
Definition Math_maxQ (a b : Q) : Q := if Qle_bool a b then b else a.
Definition Math_minQ (a b : Q) : Q := if Qle_bool a b then a else b.

(** [Math.max(...xs)] of a non-empty argument list [x, ...xs]. *)
Definition Math_max_list (x : Z) (xs : list Z) : Z := fold_left Z.max xs x.

(** [arr.slice(0, e)] with JavaScript's treatment of a negative end. *)
Definition slice0 {A : Type} (arr : list A) (e : Z) : list A :=
  let len := Z.of_nat (length arr) in
  let k := if e <? 0 then Z.max (len + e) 0 else Z.min e len in
  take (Z.to_nat k) arr.

(** [arr[i]]: [None] stands for [undefined]. *)
Definition index {A : Type} (arr : list A) (i : Z) : option A :=
  if i <? 0 then None else arr !! Z.to_nat i.

(** [Math.max(...xs, last)]: the arguments are [xs] followed by [last]. *)
Definition Math_max_with (xs : list Z) (last : Z) : Z :=
  match xs ++ [last] with
  | [] => last
  | x :: rest => Math_max_list x rest
  end.

End JS.

(** The object shape [{ col, row, colSpan, rowSpan }]: what
    [Pick<Box, 'col' | 'row' | 'colSpan' | 'rowSpan'>] of grid/types.ts
    denotes and what the functions of grid/utils/snapping.ts return. *)
Record GridRect : Type := mkGridRect
  { col : Z; row : Z; colSpan : Z; rowSpan : Z }.

(** ** src/app/grid/types.ts, useGridMath.ts and snapping.ts *)

Module GridSnapping.
Import JS.

Definition ROW_HEIGHT : Q := 60.
Definition GAP : Q := 16.
Definition GRID_COLUMNS : Z := 10.

Record GridMath : Type := mkGridMath
  { cellWidth : Q; rowHeight : Q; gap : Q; gridWidth : Q }.

(** [interface Box]: an id next to the four grid fields, so that the
    spread [{ ...box, ...snapped }] is [mkBox (id box) snapped]. *)
Record Box : Type := mkBox
  { id : string; rect : GridRect }.

Record BoxPosition : Type := mkBoxPosition
  { left : Q; top : Q; width : Q; height : Q }.

Definition pixelToGrid (x y width height : Q) (gridMath : GridMath) : GridRect :=
  let cellWidth := cellWidth gridMath in
  let rowHeight := rowHeight gridMath in
  let gap := gap gridMath in
  (* Apply snapping formulas *)
  let col := Math_round (x / (cellWidth + gap)) + 1 in
  let row := Math_round (y / (rowHeight + gap)) + 1 in
  let colSpan := Math_max 1 (Math_round (width / (cellWidth + gap))) in
  let rowSpan := Math_max 1 (Math_round (height / (rowHeight + gap))) in
  (* Clamp column to grid boundaries *)
  let col := Math_max 1 col in
  let colSpan :=
    if col + colSpan >? GRID_COLUMNS + 1 then GRID_COLUMNS + 1 - col else colSpan in
  (* Clamp row to grid boundaries (minimum 1) *)
  let row := Math_max 1 row in
  (* Ensure minimum size (at least 1 cell) *)
  let colSpan := Math_max 1 colSpan in
  let rowSpan := Math_max 1 rowSpan in
  {| col := col; row := row; colSpan := colSpan; rowSpan := rowSpan |}.

Definition gridToPixel (box : GridRect) (gridMath : GridMath) : BoxPosition :=
  let cellWidth := cellWidth gridMath in
  let rowHeight := rowHeight gridMath in
  let gap := gap gridMath in
  {| left := (inject_Z (col box) - 1) * (cellWidth + gap);
     top := (inject_Z (row box) - 1) * (rowHeight + gap);
     width := inject_Z (colSpan box) * cellWidth + (inject_Z (colSpan box) - 1) * gap;
     height := inject_Z (rowSpan box) * rowHeight + (inject_Z (rowSpan box) - 1) * gap |}%Q.

(** The Box invariants of the data model. *)
Definition valid_rect (r : GridRect) : Prop :=
  1 <= col r /\ 1 <= row r /\ 1 <= colSpan r /\ 1 <= rowSpan r /\
  col r + colSpan r - 1 <= GRID_COLUMNS.

#[global] Instance valid_rect_dec (r : GridRect) : Decision (valid_rect r).
Proof. unfold valid_rect. apply _. Defined.

(** A grid measurement with strictly positive cell width, row height and gap. *)
Definition positive_math (m : GridMath) : Prop :=
  (0 < cellWidth m /\ 0 < rowHeight m /\ 0 < gap m)%Q.

(** Converting to pixels and back. *)
Definition roundTrip (r : GridRect) (m : GridMath) : GridRect :=
  let p := gridToPixel r m in
  pixelToGrid (left p) (top p) (width p) (height p) m.

End GridSnapping.

(** ** src/app/grid/Grid.tsx (the container) *)

Module GridContainer.
Import JS GridSnapping.

(** Grid.tsx: [Math.max(...boxes.map(b => b.row + b.rowSpan - 1), 10)]. *)
Definition maxRow (boxes : list Box) : Z :=
  Math_max_with (map (fun b => row (rect b) + rowSpan (rect b) - 1) boxes) 10.

(** Grid.tsx: the height given to the container. *)
Definition gridHeight (boxes : list Box) (gridMath : GridMath) : Q :=
  (inject_Z (maxRow boxes) * (rowHeight gridMath + gap gridMath) - gap gridMath)%Q.

End GridContainer.

(** ** Pixel arithmetic as the engine computes it: IEEE 754 binary64

    useGridMath.ts and grid/snapping.ts once more, with every pixel
    quantity a binary64 [number] and every [+], [-], [*] and [/] the
    correctly rounded operation.  The integer part of the code is the
    same as in [GridSnapping]. *)

Module Binary64.

Definition number : Set := PrimFloat.float.

(** An integer as a [number]; exact for magnitudes below [2^53]. *)
Definition ofZ (z : Z) : number :=
  if z <? 0 then PrimFloat.opp (PrimFloat.of_uint63 (Uint63.of_Z (- z)))
  else PrimFloat.of_uint63 (Uint63.of_Z z).

(** The exact value of a finite [number]; [None] for NaN and the infinities. *)
Definition toQ (f : number) : option Q :=
  match FloatOps.Prim2SF f with
  | SpecFloat.S754_zero _ => Some 0%Q
  | SpecFloat.S754_finite s m e =>
      let v := if 0 <=? e then inject_Z (Z.pos m * 2 ^ e)
               else (Z.pos m # Z.to_pos (2 ^ (- e)))%Q in
      Some (if s then Qopp v else v)
  | _ => None
  end.

(** [Math.round(x)]: the integer nearest to the exact value of [x], ties
    towards plus infinity; [None] where JavaScript returns NaN or an
    infinity. *)
Definition Math_round (x : number) : option Z := option_map JS.Math_round (toQ x).

Definition ROW_HEIGHT : number := ofZ 60.
Definition GAP : number := ofZ 16.
Definition GRID_COLUMNS : Z := 10.

Record GridMath : Type := mkGridMath
  { cellWidth : number; rowHeight : number; gap : number; gridWidth : number }.

Record BoxPosition : Type := mkBoxPosition
  { left : number; top : number; width : number; height : number }.

(** The state [useGridMath] starts from. *)
Definition initialGridMath : GridMath :=
  {| cellWidth := ofZ 80; rowHeight := ROW_HEIGHT; gap := GAP; gridWidth := ofZ 896 |}.

(** [calculateGridMath]: [offsetWidth] is [containerRef.current.offsetWidth],
    an integer number of pixels, [None] while the ref is not attached; the
    result is the new state. *)
Definition calculateGridMath (offsetWidth : option Z) (st : GridMath) : GridMath :=
  match offsetWidth with
  | None => st
  | Some offsetWidth =>
      let gridWidth := ofZ offsetWidth in
      let totalGaps := PrimFloat.mul (PrimFloat.sub (ofZ GRID_COLUMNS) (ofZ 1)) GAP in
      let cellWidth := PrimFloat.div (PrimFloat.sub gridWidth totalGaps) (ofZ GRID_COLUMNS) in
      {| cellWidth := cellWidth; rowHeight := ROW_HEIGHT; gap := GAP;
         gridWidth := gridWidth |}
  end.

Definition pixelToGrid (x y width height : number) (gridMath : GridMath)
    : option GridRect :=
  let cellWidth := cellWidth gridMath in
  let rowHeight := rowHeight gridMath in
  let gap := gap gridMath in
  (* Apply snapping formulas *)
  match Math_round (PrimFloat.div x (PrimFloat.add cellWidth gap)),
        Math_round (PrimFloat.div y (PrimFloat.add rowHeight gap)),
        Math_round (PrimFloat.div width (PrimFloat.add cellWidth gap)),
        Math_round (PrimFloat.div height (PrimFloat.add rowHeight gap)) with
  | Some roundX, Some roundY, Some roundWidth, Some roundHeight =>
      let col := roundX + 1 in
      let row := roundY + 1 in
      let colSpan := JS.Math_max 1 roundWidth in
      let rowSpan := JS.Math_max 1 roundHeight in
      (* Clamp column to grid boundaries *)
      let col := JS.Math_max 1 col in
      let colSpan :=
        if col + colSpan >? GRID_COLUMNS + 1 then GRID_COLUMNS + 1 - col else colSpan in
      (* Clamp row to grid boundaries (minimum 1) *)
      let row := JS.Math_max 1 row in
      (* Ensure minimum size (at least 1 cell) *)
      let colSpan := JS.Math_max 1 colSpan in
      let rowSpan := JS.Math_max 1 rowSpan in
      Some {| col := col; row := row; colSpan := colSpan; rowSpan := rowSpan |}
  | _, _, _, _ => None
  end.

Definition gridToPixel (box : GridRect) (gridMath : GridMath) : BoxPosition :=
  let cellWidth := cellWidth gridMath in
  let rowHeight := rowHeight gridMath in
  let gap := gap gridMath in
  {| left := PrimFloat.mul (PrimFloat.sub (ofZ (col box)) (ofZ 1))
                           (PrimFloat.add cellWidth gap);
     top := PrimFloat.mul (PrimFloat.sub (ofZ (row box)) (ofZ 1))
                          (PrimFloat.add rowHeight gap);
     width := PrimFloat.add (PrimFloat.mul (ofZ (colSpan box)) cellWidth)
                            (PrimFloat.mul (PrimFloat.sub (ofZ (colSpan box)) (ofZ 1)) gap);
     height := PrimFloat.add (PrimFloat.mul (ofZ (rowSpan box)) rowHeight)
                             (PrimFloat.mul (PrimFloat.sub (ofZ (rowSpan box)) (ofZ 1)) gap) |}.

(** Converting to pixels and back. *)
Definition roundTrip (r : GridRect) (m : GridMath) : option GridRect :=
  let p := gridToPixel r m in
  pixelToGrid (left p) (top p) (width p) (height p) m.

(** The round trip coordinate by coordinate, as decidable checks: the
    origin of cell [k] snaps to [k - 1] and the extent of [k] cells to
    [k], along the columns and along the rows. *)
Definition rounds_to (o : option Z) (k : Z) : bool :=
  match o with
  | Some z => z =? k
  | None => false
  end.

Definition col_ok (m : GridMath) (k : Z) : bool :=
  rounds_to (Math_round (PrimFloat.div (left (gridToPixel (mkGridRect k 1 1 1) m))
                                       (PrimFloat.add (cellWidth m) (gap m))))
            (k - 1).

Definition row_ok (m : GridMath) (k : Z) : bool :=
  rounds_to (Math_round (PrimFloat.div (top (gridToPixel (mkGridRect 1 k 1 1) m))
                                       (PrimFloat.add (rowHeight m) (gap m))))
            (k - 1).

Definition colSpan_ok (m : GridMath) (k : Z) : bool :=
  rounds_to (Math_round (PrimFloat.div (width (gridToPixel (mkGridRect 1 1 k 1) m))
                                       (PrimFloat.add (cellWidth m) (gap m))))
            k.

Definition rowSpan_ok (m : GridMath) (k : Z) : bool :=
  rounds_to (Math_round (PrimFloat.div (height (gridToPixel (mkGridRect 1 1 1 k) m))
                                       (PrimFloat.add (rowHeight m) (gap m))))
            k.

Definition columns_ok (offsetWidth : Z) : bool :=
  let m := calculateGridMath (Some offsetWidth) initialGridMath in
  forallb (col_ok m) (seqZ 1 GRID_COLUMNS) && forallb (colSpan_ok m) (seqZ 1 GRID_COLUMNS).

Definition rows_ok (rows : Z) : bool :=
  forallb (row_ok initialGridMath) (seqZ 1 rows)
  && forallb (rowSpan_ok initialGridMath) (seqZ 1 rows).

End Binary64.

(** ** src/app/grid/utils/snapping.ts *)

Module UtilsSnapping.
Import JS.

Definition GRID_COLUMNS : Z := 10.
Definition GRID_GAP : Q := 16.
Definition ROW_HEIGHT : Q := 80.

Definition snapToGrid (x y width height cellWidth : Q) : GridRect :=
  (* Calculate grid position using the formula from spec *)
  let col := Math_max 1 (Math_round (x / (cellWidth + GRID_GAP)) + 1) in
  let row := Math_max 1 (Math_round (y / (ROW_HEIGHT + GRID_GAP)) + 1) in
  (* Calculate spans *)
  let colSpan := Math_max 1 (Math_round (width / (cellWidth + GRID_GAP))) in
  let rowSpan := Math_max 1 (Math_round (height / (ROW_HEIGHT + GRID_GAP))) in
  (* Clamp values to stay within grid boundaries *)
  let maxColSpan := GRID_COLUMNS - col + 1 in
  let colSpan := Math_min colSpan maxColSpan in
  {| col := Math_min col GRID_COLUMNS;
     row := row;
     colSpan := Math_max 1 colSpan;
     rowSpan := Math_max 1 rowSpan |}.

Definition isWithinBounds (col row colSpan rowSpan : Z) : bool :=
  (col >=? 1) && (row >=? 1) && (col + colSpan - 1 <=? GRID_COLUMNS) &&
  (colSpan >? 0) && (rowSpan >? 0).

Definition clampToGrid (col row colSpan rowSpan : Z) : GridRect :=
  (* Ensure minimum values *)
  let col := Math_max 1 col in
  let row := Math_max 1 row in
  let colSpan := Math_max 1 colSpan in
  let rowSpan := Math_max 1 rowSpan in
  (* Ensure box doesn't exceed grid width *)
  let colSpan :=
    if col + colSpan - 1 >? GRID_COLUMNS then GRID_COLUMNS - col + 1 else colSpan in
  (* If still invalid, move the box *)
  let '(col, colSpan) :=
    if col >? GRID_COLUMNS then (GRID_COLUMNS, 1) else (col, colSpan) in
  {| col := col; row := row; colSpan := colSpan; rowSpan := rowSpan |}.

(** The deselect path of the page that uses these helpers:
    [clampToGrid(snapped.col, snapped.row, snapped.colSpan, snapped.rowSpan)]
    applied to [snapped = snapToGrid(...)]. *)
Definition snapAndClamp (x y width height cellWidth : Q) : GridRect :=
  let snapped := snapToGrid x y width height cellWidth in
  clampToGrid (col snapped) (row snapped) (colSpan snapped) (rowSpan snapped).

End UtilsSnapping.

(** ** grid/utils/gridMath.ts and grid/utils/snapping.ts in binary64 *)

Module Binary64Utils.
Import JS.

Definition GRID_COLUMNS : Z := 10.
Definition GRID_GAP : Binary64.number := Binary64.ofZ 16.
Definition ROW_HEIGHT : Binary64.number := Binary64.ofZ 80.

(** Calculate cell width dynamically based on container width. *)
Definition calculateCellWidth (containerWidth : Binary64.number) : Binary64.number :=
  let totalGaps :=
    PrimFloat.mul (PrimFloat.sub (Binary64.ofZ GRID_COLUMNS) (Binary64.ofZ 1)) GRID_GAP in
  PrimFloat.div (PrimFloat.sub containerWidth totalGaps) (Binary64.ofZ GRID_COLUMNS).

(** Calculate box position when in grid mode. *)
Definition calculateBoxPosition (col row colSpan rowSpan : Z)
    (cellWidth : Binary64.number) : Binary64.BoxPosition :=
  {| Binary64.left :=
       PrimFloat.mul (PrimFloat.sub (Binary64.ofZ col) (Binary64.ofZ 1))
                     (PrimFloat.add cellWidth GRID_GAP);
     Binary64.top :=
       PrimFloat.mul (PrimFloat.sub (Binary64.ofZ row) (Binary64.ofZ 1))
                     (PrimFloat.add ROW_HEIGHT GRID_GAP);
     Binary64.width :=
       PrimFloat.add (PrimFloat.mul (Binary64.ofZ colSpan) cellWidth)
                     (PrimFloat.mul (PrimFloat.sub (Binary64.ofZ colSpan) (Binary64.ofZ 1))
                                    GRID_GAP);
     Binary64.height :=
       PrimFloat.add (PrimFloat.mul (Binary64.ofZ rowSpan) ROW_HEIGHT)
                     (PrimFloat.mul (PrimFloat.sub (Binary64.ofZ rowSpan) (Binary64.ofZ 1))
                                    GRID_GAP) |}.

(** Snap pixel position to grid coordinates. *)
Definition snapToGrid (x y width height cellWidth : Binary64.number)
    : option GridRect :=
  match Binary64.Math_round (PrimFloat.div x (PrimFloat.add cellWidth GRID_GAP)),
        Binary64.Math_round (PrimFloat.div y (PrimFloat.add ROW_HEIGHT GRID_GAP)),
        Binary64.Math_round (PrimFloat.div width (PrimFloat.add cellWidth GRID_GAP)),
        Binary64.Math_round (PrimFloat.div height (PrimFloat.add ROW_HEIGHT GRID_GAP)) with
  | Some roundX, Some roundY, Some roundWidth, Some roundHeight =>
      (* Calculate grid position using the formula from spec *)
      let col := Math_max 1 (roundX + 1) in
      let row := Math_max 1 (roundY + 1) in
      (* Calculate spans *)
      let colSpan := Math_max 1 roundWidth in
      let rowSpan := Math_max 1 roundHeight in
      (* Clamp values to stay within grid boundaries *)
      let maxColSpan := GRID_COLUMNS - col + 1 in
      let colSpan := Math_min colSpan maxColSpan in
      Some {| col := Math_min col GRID_COLUMNS;
              row := row;
              colSpan := Math_max 1 colSpan;
              rowSpan := Math_max 1 rowSpan |}
  | _, _, _, _ => None
  end.

(** Snapping the pixel box of a grid rectangle. *)
Definition snapBack (r : GridRect) (cellWidth : Binary64.number) : option GridRect :=
  let p := calculateBoxPosition (col r) (row r) (colSpan r) (rowSpan r) cellWidth in
  snapToGrid (Binary64.left p) (Binary64.top p)
             (Binary64.width p) (Binary64.height p) cellWidth.

(** The rows of the round trip as decidable checks: the top of row [k]
    snaps to [k - 1] and the height of [k] rows to [k]. *)
Definition row_ok (k : Z) : bool :=
  Binary64.rounds_to
    (Binary64.Math_round
       (PrimFloat.div (Binary64.top (calculateBoxPosition 1 k 1 1 ROW_HEIGHT))
                      (PrimFloat.add ROW_HEIGHT GRID_GAP)))
    (k - 1).

Definition rowSpan_ok (k : Z) : bool :=
  Binary64.rounds_to
    (Binary64.Math_round
       (PrimFloat.div (Binary64.height (calculateBoxPosition 1 1 1 k ROW_HEIGHT))
                      (PrimFloat.add ROW_HEIGHT GRID_GAP)))
    k.

Definition rows_ok (rows : Z) : bool :=
  forallb row_ok (seqZ 1 rows) && forallb rowSpan_ok (seqZ 1 rows).

End Binary64Utils.

(** ** src/app/lib/gridUtils.ts *)

Module GridUtils.
Import JS.

Definition GRID_COLUMNS : Z := 10.
Definition CELL_SIZE : Q := 80.

Record GridPosition : Type := mkGridPosition
  { colStart : Z; colEnd : Z; rowStart : Z; rowEnd : Z }.

Record BoxPosition : Type := mkBoxPosition
  { x : Q; y : Q; width : Q; height : Q }.

Definition pixelToGrid (x y width height : Q) : GridPosition :=
  let colStart := Math_max 1 (Math_round (x / CELL_SIZE) + 1) in
  let colEnd :=
    Math_min (GRID_COLUMNS + 1)
             (colStart + Math_max 1 (Math_round (width / CELL_SIZE))) in
  let rowStart := Math_max 1 (Math_round (y / CELL_SIZE) + 1) in
  let rowEnd := rowStart + Math_max 1 (Math_round (height / CELL_SIZE)) in
  {| colStart := Math_max 1 colStart;
     colEnd := Math_min (GRID_COLUMNS + 1) colEnd;
     rowStart := Math_max 1 rowStart;
     rowEnd := rowEnd |}.

Definition gridToPixel (gridPos : GridPosition) : BoxPosition :=
  {| x := (inject_Z (colStart gridPos) - 1) * CELL_SIZE;
     y := (inject_Z (rowStart gridPos) - 1) * CELL_SIZE;
     width := inject_Z (colEnd gridPos - colStart gridPos) * CELL_SIZE;
     height := inject_Z (rowEnd gridPos - rowStart gridPos) * CELL_SIZE |}%Q.

Definition doGridPositionsOverlap (pos1 pos2 : GridPosition) : bool :=
  (colStart pos1 <? colEnd pos2) &&
  (colEnd pos1 >? colStart pos2) &&
  (rowStart pos1 <? rowEnd pos2) &&
  (rowEnd pos1 >? rowStart pos2).

Definition isValidGridPosition (pos : GridPosition) : bool :=
  (colStart pos >=? 1) &&
  (colStart pos <=? GRID_COLUMNS) &&
  (colEnd pos >? colStart pos) &&
  (colEnd pos <=? GRID_COLUMNS + 1) &&
  (rowStart pos >=? 1) &&
  (rowEnd pos >? rowStart pos).

(** The returned object [{ width, height }]. *)
Record Size : Type := mkSize { size_width : Q; size_height : Q }.

Definition constrainToGrid (width height : Q) : Size :=
  let minSize := CELL_SIZE in
  let maxWidth := (inject_Z GRID_COLUMNS * CELL_SIZE)%Q in
  let maxHeight := (5 * CELL_SIZE)%Q in (* Max 5 rows as per spec *)
  {| size_width :=
       Math_maxQ minSize
         (Math_minQ maxWidth (inject_Z (Math_round (width / CELL_SIZE)) * CELL_SIZE)%Q);
     size_height :=
       Math_maxQ minSize
         (Math_minQ maxHeight (inject_Z (Math_round (height / CELL_SIZE)) * CELL_SIZE)%Q) |}.

End GridUtils.

(** ** src/app/components/GridBox.tsx (the Box type) and GridSystem.tsx *)

Module GridSystem.
Import JS GridUtils.

Record Box : Type := mkBox
  { id : string;
    gridPosition : GridPosition;
    absolutePosition : option BoxPosition;
    isSelected : bool }.

(** A call [onBoxUpdate(id, gridPosition, absolutePosition)] to the parent. *)
Record BoxUpdate : Type := mkBoxUpdate
  { upd_id : string;
    upd_gridPosition : GridPosition;
    upd_absolutePosition : option BoxPosition }.

Section Handlers.
Variable boxes : list Box.
Variable selectedBoxIds : gset string.

(** Check for collisions when updating box position *)
Definition checkCollision (boxId : string) (newGridPos : GridPosition) : bool :=
  existsb
    (fun box =>
       negb (String.eqb (id box) boxId) &&
       negb (bool_decide (id box ∈ selectedBoxIds)) &&
       doGridPositionsOverlap (gridPosition box) newGridPos)
    boxes.

(** [newPos.rowStart += 1; newPos.rowEnd += 1] *)
Definition shiftDown (newPos : GridPosition) : GridPosition :=
  {| colStart := colStart newPos;
     colEnd := colEnd newPos;
     rowStart := rowStart newPos + 1;
     rowEnd := rowEnd newPos + 1 |}.

(** The loop [while (checkCollision(id, newPos) && attempts < 100)], run
    for at most [fuel] iterations; it returns [newPos] and [attempts]. *)
Fixpoint findPosition (fuel : nat) (id : string) (newPos : GridPosition)
    (attempts : Z) : GridPosition * Z :=
  match fuel with
  | O => (newPos, attempts)
  | S fuel' =>
      if checkCollision id newPos && (attempts <? 100)
      then findPosition fuel' id (shiftDown newPos) (attempts + 1)
      else (newPos, attempts)
  end.

(** Handle box update with collision detection.  The result is the call
    made to [onBoxUpdate], if any. *)
Definition handleBoxUpdate (id0 : string) (gridPosition0 : GridPosition)
    (absolutePosition0 : option BoxPosition) : option BoxUpdate :=
  (* Only check collision when snapping to grid (no absolute position) *)
  if negb (bool_decide (is_Some absolutePosition0)) && checkCollision id0 gridPosition0
  then
    (* Find a non-overlapping position *)
    let '(newPos, attempts) := findPosition 100 id0 gridPosition0 0 in
    if attempts <? 100
    then Some (mkBoxUpdate id0 newPos absolutePosition0)
    else
      (* Couldn't find a position, keep current *)
      match find (fun b => String.eqb (id b) id0) boxes with
      | Some currentBox =>
          Some (mkBoxUpdate id0 (gridPosition currentBox) absolutePosition0)
      | None => None
      end
  else Some (mkBoxUpdate id0 gridPosition0 absolutePosition0).

End Handlers.

(** No unselected box overlaps another unselected box. *)
Definition noOverlap (boxes : list Box) (selectedBoxIds : gset string) : bool :=
  forallb
    (fun box =>
       bool_decide (id box ∈ selectedBoxIds)
       || negb (checkCollision boxes selectedBoxIds (id box) (gridPosition box)))
    boxes.

(** The candidate moved down by [k] rows, columns untouched. *)
Definition shiftRows (k : Z) (p : GridPosition) : GridPosition :=
  {| colStart := colStart p;
     colEnd := colEnd p;
     rowStart := rowStart p + k;
     rowEnd := rowEnd p + k |}.

(** The effect that sizes the grid: [setMaxRows(Math.max(maxRow + 2, 10))]
    with [maxRow = Math.max(...boxes.map(box => box.gridPosition.rowEnd), 10)]. *)
Definition maxRows (boxes : list Box) : Z :=
  let maxRow := Math_max_with (map (fun box => rowEnd (gridPosition box)) boxes) 10 in
  Math_max (maxRow + 2) 10.

(** The boxes rendered inside the CSS grid. *)
Definition renderedInGrid (boxes : list Box) : list Box :=
  List.filter
    (fun box => negb (isSelected box) || negb (bool_decide (is_Some (absolutePosition box))))
    boxes.

(** The boxes rendered with absolute positioning. *)
Definition renderedAbsolute (boxes : list Box) : list Box :=
  List.filter
    (fun box => isSelected box && bool_decide (is_Some (absolutePosition box)))
    boxes.

End GridSystem.

(** ** src/app/components/GridBox.tsx: the gestures of one box *)

Module GridBoxHandlers.
Import JS GridUtils GridSystem.

Definition paddingOffset : Q := 24. (* p-6 = 24px *)
Definition gridContainerOffset : Q := 0.

(** Each handler returns the call it makes to [onUpdate], if any. *)

Definition handleDragStart (box : Box) : option BoxUpdate :=
  if negb (isSelected box) then None
  else
    (* Convert grid position to absolute if needed *)
    match absolutePosition box with
    | None =>
        let absPos := gridToPixel (gridPosition box) in
        Some (mkBoxUpdate (id box) (gridPosition box) (Some absPos))
    | Some _ => None
    end.

Definition handleDrag (box : Box) (dx dy : Q) : option BoxUpdate :=
  match isSelected box, absolutePosition box with
  | true, Some abs =>
      let newPosition :=
        {| x := dx - paddingOffset - gridContainerOffset;
           y := dy - paddingOffset - gridContainerOffset;
           width := width abs;
           height := height abs |}%Q in
      Some (mkBoxUpdate (id box) (gridPosition box) (Some newPosition))
  | _, _ => None
  end.

Definition handleDragStop (box : Box) (dx dy : Q) : option BoxUpdate :=
  match isSelected box, absolutePosition box with
  | true, Some abs =>
      let newPosition :=
        {| x := dx - paddingOffset - gridContainerOffset;
           y := dy - paddingOffset - gridContainerOffset;
           width := width abs;
           height := height abs |}%Q in
      (* Calculate grid position for reference but keep absolute position *)
      let newGridPos :=
        pixelToGrid (dx - paddingOffset - gridContainerOffset)%Q
                    (dy - paddingOffset - gridContainerOffset)%Q
                    (width abs) (height abs) in
      Some (mkBoxUpdate (id box) newGridPos (Some newPosition))
  | _, _ => None
  end.

(** [newWidth] and [newHeight] are the results of [parseInt]. *)
Definition handleResize (box : Box) (newWidth newHeight : Z) (px py : Q)
    : option BoxUpdate :=
  match isSelected box, absolutePosition box with
  | true, Some _ =>
      (* Constrain to grid *)
      let constrained := constrainToGrid (inject_Z newWidth) (inject_Z newHeight) in
      let newPosition :=
        {| x := px - paddingOffset;
           y := py - paddingOffset;
           width := size_width constrained;
           height := size_height constrained |}%Q in
      Some (mkBoxUpdate (id box) (gridPosition box) (Some newPosition))
  | _, _ => None
  end.

Definition handleResizeStop (box : Box) (newWidth newHeight : Z) (px py : Q)
    : option BoxUpdate :=
  match isSelected box, absolutePosition box with
  | true, Some _ =>
      (* Constrain to grid *)
      let constrained := constrainToGrid (inject_Z newWidth) (inject_Z newHeight) in
      let newPosition :=
        {| x := px - paddingOffset - gridContainerOffset;
           y := py - paddingOffset - gridContainerOffset;
           width := size_width constrained;
           height := size_height constrained |}%Q in
      (* Calculate grid position for reference but keep absolute position *)
      let newGridPos :=
        pixelToGrid (px - paddingOffset - gridContainerOffset)%Q
                    (py - paddingOffset - gridContainerOffset)%Q
                    (size_width constrained) (size_height constrained) in
      Some (mkBoxUpdate (id box) newGridPos (Some newPosition))
  | _, _ => None
  end.

Inductive ArrowKey : Type := ArrowUp | ArrowDown | ArrowLeft | ArrowRight.

(** The [keydown] listener on an arrow key; it is only installed while
    the box is selected. *)
Definition handleArrowKey (box : Box) (key : ArrowKey) (shiftKey : bool)
    : option BoxUpdate :=
  if negb (isSelected box) then None
  else
    match absolutePosition box with
    | None => None
    | Some abs =>
        let step := if shiftKey then CELL_SIZE else (CELL_SIZE / 2)%Q in
        let '(newX, newY) :=
          match key with
          | ArrowUp => (x abs, Math_maxQ 0 (y abs - step)%Q)
          | ArrowDown => (x abs, (y abs + step)%Q)
          | ArrowLeft => (Math_maxQ 0 (x abs - step)%Q, y abs)
          | ArrowRight => ((x abs + step)%Q, y abs)
          end in
        let newPosition :=
          {| x := newX; y := newY; width := width abs; height := height abs |} in
        Some (mkBoxUpdate (id box) (gridPosition box) (Some newPosition))
    end.

(** What the drag-and-resize widget and the keyboard can ask of a box. *)
Inductive Gesture : Type :=
  | DragStart
  | Drag (dx dy : Q)
  | DragStop (dx dy : Q)
  | Resize (newWidth newHeight : Z) (px py : Q)
  | ResizeStop (newWidth newHeight : Z) (px py : Q)
  | Arrow (key : ArrowKey) (shiftKey : bool).

Definition onGesture (box : Box) (g : Gesture) : option BoxUpdate :=
  match g with
  | DragStart => handleDragStart box
  | Drag dx dy => handleDrag box dx dy
  | DragStop dx dy => handleDragStop box dx dy
  | Resize w h px py => handleResize box w h px py
  | ResizeStop w h px py => handleResizeStop box w h px py
  | Arrow key shiftKey => handleArrowKey box key shiftKey
  end.

End GridBoxHandlers.

(** ** JSON values, as [JSON.parse] produces them *)

Module Json.

#[warnings="-register-all"] Inductive any : Type :=
  | Null
  | Bool (b : bool)
  | Num (n : Q)
  | Str (s : string)
  | Arr (elems : list any)
  | Obj (props : list (string * any)).

Definition Array_isArray (v : any) : bool :=
  match v with Arr _ => true | _ => false end.

(** The elements of a value that passed [Array.isArray]. *)
Definition elements (v : any) : list any :=
  match v with Arr elems => elems | _ => [] end.

End Json.

(** ** The page built on grid/snapping.ts (src/app/page.tsx): add, drag, import *)

Module Page.
Import JS GridSnapping.

(** The React state of the page.  [B] is the type of the entries of
    [boxes]: [Box] for the typed handlers, a raw JSON value for the import
    handler, which stores the parsed array without looking at its
    elements.  [alerts] records the calls to [alert]. *)
Record State (B : Type) : Type := mkState
  { boxes : list B;
    selectedIds : gset string;
    nextId : Z;
    alerts : list string }.
Arguments mkState {B} _ _ _ _.
Arguments boxes {B} _.
Arguments selectedIds {B} _.
Arguments nextId {B} _.
Arguments alerts {B} _.

Definition initialBoxes : list Box :=
  [ mkBox "1" (mkGridRect 1 1 2 1);
    mkBox "2" (mkGridRect 3 1 3 2);
    mkBox "3" (mkGridRect 6 1 2 1);
    mkBox "4" (mkGridRect 1 2 2 2) ].

Definition initialState : State Box :=
  {| boxes := initialBoxes; selectedIds := ∅; nextId := 5; alerts := [] |}.

(** The last row a box occupies: [b.row + b.rowSpan - 1]. *)
Definition lastRow (b : Box) : Z := row (rect b) + rowSpan (rect b) - 1.

(** [boxes.length > 0 ? Math.max(...boxes.map(b => b.row + b.rowSpan - 1)) : 0] *)
Definition maxRow (boxes : list Box) : Z :=
  match map lastRow boxes with
  | [] => 0
  | r :: rs => Math_max_list r rs
  end.

(** Add a new box to the grid, at the next available row. *)
Definition handleAddBox (st : State Box) : State Box :=
  let maxRow := maxRow (boxes st) in
  let newBox :=
    {| id := pretty (nextId st);
       rect := {| col := 1; row := maxRow + 1; colSpan := 2; rowSpan := 1 |} |} in
  {| boxes := boxes st ++ [newBox];
     selectedIds := selectedIds st;
     nextId := nextId st + 1;
     alerts := alerts st |}.

(** Handle drag stop: snap the box to the grid. *)
Definition handleDragStop (gridMath : GridMath) (id0 : string) (x y : Q)
    (prev : list Box) : list Box :=
  map
    (fun box =>
       if negb (String.eqb (id box) id0) then box
       else
         match find (fun b => String.eqb (id b) id0) prev with
         | None => box
         | Some currentBox =>
             (* Calculate current dimensions for snapping *)
             let snapped :=
               pixelToGrid x y
                 (inject_Z (colSpan (rect box)) * cellWidth gridMath
                  + (inject_Z (colSpan (rect box)) - 1) * gap gridMath)%Q
                 (inject_Z (rowSpan (rect box)) * rowHeight gridMath
                  + (inject_Z (rowSpan (rect box)) - 1) * gap gridMath)%Q
                 gridMath in
             (* Update box with new grid coordinates *)
             {| id := id box; rect := snapped |}
         end)
    prev.

(** Handle resize stop: snap the new size and position to the grid. *)
Definition handleResizeStop (gridMath : GridMath) (id0 : string)
    (x y width height : Q) (prev : list Box) : list Box :=
  map
    (fun box =>
       if negb (String.eqb (id box) id0) then box
       else {| id := id box; rect := pixelToGrid x y width height gridMath |})
    prev.

(** Clear all boxes and reset the id counter; [confirmed] is the answer
    to the [confirm] dialog. *)
Definition handleClearAll {B : Type} (confirmed : bool) (st : State B) : State B :=
  if confirmed
  then {| boxes := []; selectedIds := ∅; nextId := 1; alerts := alerts st |}
  else st.

(** Handle box selection; multi-select toggles with Shift. *)
Definition handleSelect {B : Type} (id0 : string) (multiSelect : bool)
    (st : State B) : State B :=
  let newSet :=
    if multiSelect
    then
      if bool_decide (id0 ∈ selectedIds st)
      then selectedIds st ∖ {[id0]}
      else selectedIds st ∪ {[id0]}
    else {[id0]} in
  {| boxes := boxes st; selectedIds := newSet; nextId := nextId st;
     alerts := alerts st |}.

(** Deselect all boxes (click outside). *)
Definition handleDeselect {B : Type} (st : State B) : State B :=
  {| boxes := boxes st; selectedIds := ∅; nextId := nextId st;
     alerts := alerts st |}.

(** All ids are numerals below the counter, and no two are equal. *)
Definition ids_fresh (st : State Box) : Prop :=
  NoDup (map id (boxes st)) /\
  forall b, b ∈ boxes st -> exists k : Z, id b = pretty k /\ k < nextId st.

(** [reader.onload]: [result] is the outcome of [JSON.parse], [None] when
    it throws. *)
Definition onload (result : option Json.any) (st : State Json.any) : State Json.any :=
  match result with
  | Some imported =>
      if Json.Array_isArray imported
      then {| boxes := Json.elements imported;
              selectedIds := ∅; (* Clear selection *)
              nextId := nextId st;
              alerts := alerts st |}
      else st
  | None =>
      {| boxes := boxes st;
         selectedIds := selectedIds st;
         nextId := nextId st;
         alerts := alerts st ++ ["Invalid JSON file"] |}
  end.

(** Import grid layout from JSON file; [file] is [e.target.files?.[0]]
    given by what parsing its text yields. *)
Definition handleImport (file : option (option Json.any)) (st : State Json.any)
    : State Json.any :=
  match file with
  | None => st
  | Some result => onload result st
  end.

(** A box as [handleExport] writes it ([JSON.stringify(boxes)]). *)
Definition toJson (b : Box) : Json.any :=
  Json.Obj
    [ ("id", Json.Str (id b));
      ("col", Json.Num (inject_Z (col (rect b))));
      ("row", Json.Num (inject_Z (row (rect b))));
      ("colSpan", Json.Num (inject_Z (colSpan (rect b))));
      ("rowSpan", Json.Num (inject_Z (rowSpan (rect b)))) ].

End Page.

(** ** The page with undo and redo (page.tsx of the utils/ variant) *)

Module HistoryPage.
Import JS.

Record BoxData : Type := mkBoxData
  { id : string;
    rect : GridRect;
    absolutePosition : option GridSnapping.BoxPosition;
    isSelected : option bool }.

Module HistoryState.
Record t : Type := mk
  { boxes : list BoxData; selectedBoxIds : gset string }.
End HistoryState.

Record State : Type := mkState
  { boxes : list BoxData;
    selectedBoxIds : gset string;
    history : list HistoryState.t;
    historyIndex : Z;
    boxIdCounter : Z }.

Definition initialBoxes : list BoxData :=
  [ mkBoxData "box-1" (mkGridRect 1 1 2 1) None None;
    mkBoxData "box-2" (mkGridRect 3 1 3 2) None None;
    mkBoxData "box-3" (mkGridRect 6 1 3 1) None None;
    mkBoxData "box-4" (mkGridRect 1 2 2 2) None None ].

(** Save state to history.  [JSON.parse(JSON.stringify(newBoxes))] and
    [new Set(newSelectedIds)] copy values that have no identity here. *)
Definition saveToHistory (newBoxes : list BoxData) (newSelectedIds : gset string)
    (st : State) : State :=
  let newHistory :=
    slice0 (history st) (historyIndex st + 1)
    ++ [ HistoryState.mk newBoxes newSelectedIds ] in
  {| boxes := boxes st;
     selectedBoxIds := selectedBoxIds st;
     history := newHistory;
     historyIndex := Z.of_nat (length newHistory) - 1;
     boxIdCounter := boxIdCounter st |}.

(** The state after the mount effect [saveToHistory(boxes, new Set())]. *)
Definition initialState : State :=
  saveToHistory initialBoxes ∅
    {| boxes := initialBoxes; selectedBoxIds := ∅; history := [];
       historyIndex := -1; boxIdCounter := 4 |}.

(** Undo.  [None] is the TypeError of reading [.boxes] of [undefined]. *)
Definition handleUndo (st : State) : option State :=
  if historyIndex st >? 0 then
    match index (history st) (historyIndex st - 1) with
    | Some prevState =>
        Some {| boxes := HistoryState.boxes prevState;
                selectedBoxIds := HistoryState.selectedBoxIds prevState;
                history := history st;
                historyIndex := historyIndex st - 1;
                boxIdCounter := boxIdCounter st |}
    | None => None
    end
  else Some st.

(** Redo. *)
Definition handleRedo (st : State) : option State :=
  if historyIndex st <? Z.of_nat (length (history st)) - 1 then
    match index (history st) (historyIndex st + 1) with
    | Some nextState =>
        Some {| boxes := HistoryState.boxes nextState;
                selectedBoxIds := HistoryState.selectedBoxIds nextState;
                history := history st;
                historyIndex := historyIndex st + 1;
                boxIdCounter := boxIdCounter st |}
    | None => None
    end
  else Some st.

Definition lastRow (b : BoxData) : Z := row (rect b) + rowSpan (rect b) - 1.

(** Add new box, and commit it to the history. *)
Definition handleAddBox (st : State) : State :=
  let maxRow :=
    match map lastRow (boxes st) with
    | [] => 0
    | r :: rs => Math_max_list r rs
    end in
  let counter := boxIdCounter st + 1 in
  let newBox :=
    {| id := "box-" +:+ pretty counter;
       rect := {| col := 1; row := maxRow + 1; colSpan := 2; rowSpan := 1 |};
       absolutePosition := None;
       isSelected := None |} in
  let newBoxes := boxes st ++ [newBox] in
  saveToHistory newBoxes (selectedBoxIds st)
    {| boxes := newBoxes;
       selectedBoxIds := selectedBoxIds st;
       history := history st;
       historyIndex := historyIndex st;
       boxIdCounter := counter |}.

(** Handle box delete. *)
Definition handleBoxDelete (id0 : string) (st : State) : State :=
  let newBoxes := List.filter (fun box => negb (String.eqb (id box) id0)) (boxes st) in
  let newSelectedIds := selectedBoxIds st ∖ {[id0]} in
  saveToHistory newBoxes newSelectedIds
    {| boxes := newBoxes;
       selectedBoxIds := newSelectedIds;
       history := history st;
       historyIndex := historyIndex st;
       boxIdCounter := boxIdCounter st |}.

(** Clear all boxes; [confirmed] is the answer to the [confirm] dialog. *)
Definition handleClearAll (confirmed : bool) (st : State) : State :=
  if (Z.of_nat (length (boxes st)) =? 0) then st
  else if confirmed then
    saveToHistory [] ∅
      {| boxes := [];
         selectedBoxIds := ∅;
         history := history st;
         historyIndex := historyIndex st;
         boxIdCounter := boxIdCounter st |}
  else st.

(** The live Layout and Selection are the snapshot under the cursor. *)
Definition committed (st : State) : Prop :=
  index (history st) (historyIndex st)
  = Some (HistoryState.mk (boxes st) (selectedBoxIds st)).

(** The cursor points at an entry of the history. *)
Definition cursor_in_range (st : State) : Prop :=
  0 <= historyIndex st < Z.of_nat (length (history st)).

(** [n] presses of the same key, stopping at the first exception. *)
Fixpoint repeatedly (n : nat) (handler : State -> option State) (st : State)
    : option State :=
  match n with
  | O => Some st
  | S n' =>
      match handler st with
      | Some st' => repeatedly n' handler st'
      | None => None
      end
  end.

End HistoryPage.

(** ** Sample data for the examples *)

(** The default measurement of [useGridMath]: 80 pixel cells. *)
Definition math80 : GridSnapping.GridMath :=
  {| GridSnapping.cellWidth := 80; GridSnapping.rowHeight := 60;
     GridSnapping.gap := 16; GridSnapping.gridWidth := 944 |}.

(** A narrow container: cells of 10 pixels with the 16 pixel gap. *)
Definition math10 : GridSnapping.GridMath :=
  {| GridSnapping.cellWidth := 10; GridSnapping.rowHeight := 60;
     GridSnapping.gap := 16; GridSnapping.gridWidth := 244 |}.

(** A column of [n] unselected boxes, five rows each, in columns 1 and 2,
    stacked from row 1 downwards. *)
Definition stack (n : nat) : list GridSystem.Box :=
  map (fun i : nat =>
         GridSystem.mkBox ("b" +:+ pretty i)
           (GridUtils.mkGridPosition 1 3 (1 + 5 * Z.of_nat i) (6 + 5 * Z.of_nat i))
           None false)
      (seq 0 n).

(** The acting box, selected and dragged over the top of the stack. *)
Definition actor : GridSystem.Box :=
  GridSystem.mkBox "x" (GridUtils.mkGridPosition 1 3 1 2)
    (Some (GridUtils.mkBoxPosition 0 0 160 80)) true.

(** The layout of the demo page, as stored values. *)
Definition demoState : Page.State Json.any :=
  {| Page.boxes := map Page.toJson Page.initialBoxes; Page.selectedIds := {["2"]};
     Page.nextId := 5; Page.alerts := [] |}.

(** The enveloped payload [{"boxes": [box x], "version": "2.0"}]. *)
Definition envelope : Json.any :=
  Json.Obj
    [ ("boxes", Json.Arr [Page.toJson (GridSnapping.mkBox "x" (mkGridRect 1 1 2 1))]);
      ("version", Json.Str "2.0") ].


(** * Properties *)

Section Rounding.
Import JS.

Lemma Math_round_unique (x : Q) (n : Z) :
  (inject_Z n - (1 # 2) <= x)%Q -> (x < inject_Z n + (1 # 2))%Q ->
  Math_round x = n.
Proof.
  intros Hlo Hhi. unfold Math_round.
  assert (Hle : (inject_Z n <= x + (1 # 2))%Q) by lra.
  assert (Hlt : (x + (1 # 2) < inject_Z (n + 1))%Q).
  { rewrite inject_Z_plus. change (inject_Z 1) with 1%Q. lra. }
  apply Qfloor_resp_le in Hle. rewrite Qfloor_Z in Hle.
  pose proof (Qfloor_le (x + (1 # 2))) as Hfl.
  assert (Hz : (inject_Z (Qfloor (x + (1 # 2))) < inject_Z (n + 1))%Q)
    by (eapply Qle_lt_trans; eauto).
  rewrite <- Zlt_Qlt in Hz. lia.
Qed.

Lemma Math_round_Z (n : Z) : Math_round (inject_Z n) = n.
Proof. apply Math_round_unique; lra. Qed.

(** A span [s] of cells of size [c] with gaps [g] in between, measured in
    units of [c + g], rounds back to [s] as long as the gap is not wider
    than the cell. *)
Lemma Math_round_span (s : Z) (c g : Q) :
  (0 <= g)%Q -> (g <= c)%Q -> (0 < c + g)%Q ->
  Math_round ((inject_Z s * c + (inject_Z s - 1) * g) / (c + g)) = s.
Proof.
  intros Hg Hgc Hpos. apply Math_round_unique.
  - apply Qle_shift_div_l; [exact Hpos|]. nra.
  - apply Qlt_shift_div_r; [exact Hpos|]. nra.
Qed.

Lemma inject_Z_pred (k : Z) : (inject_Z (k - 1) == inject_Z k - 1)%Q.
Proof. unfold Z.sub. rewrite inject_Z_plus, inject_Z_opp. reflexivity. Qed.

Lemma Math_round_origin (k : Z) (d : Q) :
  (0 < d)%Q -> Math_round ((inject_Z k - 1) * d / d) = k - 1.
Proof.
  intros Hd. apply Math_round_unique.
  - apply Qle_shift_div_l; [exact Hd|]. rewrite inject_Z_pred. nra.
  - apply Qlt_shift_div_r; [exact Hd|]. rewrite inject_Z_pred. nra.
Qed.

End Rounding.

(** ** Grid geometry: the round trip *)

Section RoundTrip.
Import JS GridSnapping.

(** In exact arithmetic the round trip holds as soon as the gap is no
    wider than the cell and no taller than the row. *)
Lemma pixelToGrid_gridToPixel (r : GridRect) (m : GridMath) :
  valid_rect r ->
  (0 <= gap m)%Q -> (gap m <= cellWidth m)%Q -> (gap m <= rowHeight m)%Q ->
  (0 < cellWidth m + gap m)%Q -> (0 < rowHeight m + gap m)%Q ->
  roundTrip r m = r.
Proof.
  intros (Hc & Hr & Hcs & Hrs & Hfit) Hg Hgc Hgr Hdc Hdr.
  destruct r as [c rw cs rs]. cbn in Hc, Hr, Hcs, Hrs, Hfit.
  cbv beta iota zeta delta
    [roundTrip pixelToGrid gridToPixel left top width height
     col row colSpan rowSpan].
  rewrite !Math_round_origin by assumption.
  rewrite !Math_round_span by assumption.
  unfold Math_max, GRID_COLUMNS in *.
  replace (Z.max 1 (c - 1 + 1)) with c by lia.
  replace (Z.max 1 (rw - 1 + 1)) with rw by lia.
  replace (Z.max 1 cs) with cs by lia.
  replace (Z.max 1 rs) with rs by lia.
  destruct (Z.gtb_spec (c + cs) (10 + 1)); [lia|].
  f_equal; lia.
Qed.

Lemma rounds_to_Some (o : option Z) (k : Z) :
  Binary64.rounds_to o k = true -> o = Some k.
Proof.
  destruct o as [z|]; cbn; [|discriminate].
  intros H. apply Z.eqb_eq in H. now subst.
Qed.

Lemma forallb_seqZ (P : Z -> bool) (lo len z : Z) :
  forallb P (seqZ lo len) = true -> lo <= z < lo + len -> P z = true.
Proof.
  intros Hall Hz. rewrite forallb_forall in Hall.
  apply Hall, list_elem_of_In, elem_of_seqZ. exact Hz.
Qed.

(** Every container width from 304 to 8192 pixels, column by column. *)
Lemma columns_ok_measured (W : Z) :
  304 <= W <= 8192 -> Binary64.columns_ok W = true.
Proof.
  assert (Hall : forallb Binary64.columns_ok (seqZ 304 7889) = true)
    by (vm_compute; reflexivity).
  intros HW. apply (forallb_seqZ _ 304 7889); [exact Hall|lia].
Qed.

(** The first thousand rows under the fixed row height and gap. *)
Lemma rows_ok_thousand : Binary64.rows_ok 1000 = true.
Proof. vm_compute. reflexivity. Qed.

(** The same under the row height of grid/utils. *)
Lemma rows80_ok_thousand : Binary64Utils.rows_ok 1000 = true.
Proof. vm_compute. reflexivity. Qed.

(** C1, as amended.  In binary64, for every measurement [useGridMath]
    takes of a container 304 to 8192 pixels wide (from 304 pixels on the
    cell is at least as wide as the gap) and every valid grid rectangle
    within the first thousand rows, converting to pixels with
    [gridToPixel] and back with [pixelToGrid] returns the rectangle
    itself. *)
Theorem roundTrip_measured_binary64 (W : Z) (st : Binary64.GridMath) (r : GridRect) :
  304 <= W <= 8192 -> valid_rect r -> row r <= 1000 -> rowSpan r <= 1000 ->
  let m := Binary64.calculateGridMath (Some W) st in
  let p := Binary64.gridToPixel r m in
  Binary64.pixelToGrid (Binary64.left p) (Binary64.top p)
                       (Binary64.width p) (Binary64.height p) m
  = Some r.
Proof.
  intros HW (Hc & Hr & Hcs & Hrs & Hfit) Hrow Hrowspan.
  destruct r as [c rw cs rs]. cbn in Hc, Hr, Hcs, Hrs, Hfit, Hrow, Hrowspan.
  unfold GRID_COLUMNS in Hfit.
  pose proof (columns_ok_measured W HW) as Hcols.
  pose proof rows_ok_thousand as Hrows.
  apply andb_true_iff in Hcols as [Hcol Hspan].
  apply andb_true_iff in Hrows as [Hrw Hrsp].
  apply forallb_seqZ with (z := c) in Hcol; [|unfold Binary64.GRID_COLUMNS; lia].
  apply forallb_seqZ with (z := cs) in Hspan; [|unfold Binary64.GRID_COLUMNS; lia].
  apply forallb_seqZ with (z := rw) in Hrw; [|lia].
  apply forallb_seqZ with (z := rs) in Hrsp; [|lia].
  apply rounds_to_Some in Hcol, Hspan, Hrw, Hrsp.
  cbv zeta.
  change (Binary64.calculateGridMath (Some W) st)
    with (Binary64.calculateGridMath (Some W) Binary64.initialGridMath).
  set (m := Binary64.calculateGridMath (Some W) Binary64.initialGridMath) in *.
  unfold Binary64.pixelToGrid.
  change (Binary64.Math_round
            (PrimFloat.div (Binary64.left (Binary64.gridToPixel (mkGridRect c rw cs rs) m))
               (PrimFloat.add (Binary64.cellWidth m) (Binary64.gap m))))
    with (Binary64.Math_round
            (PrimFloat.div (Binary64.left (Binary64.gridToPixel (mkGridRect c 1 1 1) m))
               (PrimFloat.add (Binary64.cellWidth m) (Binary64.gap m)))).
  change (Binary64.Math_round
            (PrimFloat.div (Binary64.width (Binary64.gridToPixel (mkGridRect c rw cs rs) m))
               (PrimFloat.add (Binary64.cellWidth m) (Binary64.gap m))))
    with (Binary64.Math_round
            (PrimFloat.div (Binary64.width (Binary64.gridToPixel (mkGridRect 1 1 cs 1) m))
               (PrimFloat.add (Binary64.cellWidth m) (Binary64.gap m)))).
  change (Binary64.Math_round
            (PrimFloat.div (Binary64.top (Binary64.gridToPixel (mkGridRect c rw cs rs) m))
               (PrimFloat.add (Binary64.rowHeight m) (Binary64.gap m))))
    with (Binary64.Math_round
            (PrimFloat.div
               (Binary64.top (Binary64.gridToPixel (mkGridRect 1 rw 1 1) Binary64.initialGridMath))
               (PrimFloat.add (Binary64.rowHeight Binary64.initialGridMath)
                              (Binary64.gap Binary64.initialGridMath)))).
  change (Binary64.Math_round
            (PrimFloat.div (Binary64.height (Binary64.gridToPixel (mkGridRect c rw cs rs) m))
               (PrimFloat.add (Binary64.rowHeight m) (Binary64.gap m))))
    with (Binary64.Math_round
            (PrimFloat.div
               (Binary64.height (Binary64.gridToPixel (mkGridRect 1 1 1 rs) Binary64.initialGridMath))
               (PrimFloat.add (Binary64.rowHeight Binary64.initialGridMath)
                              (Binary64.gap Binary64.initialGridMath)))).
  unfold Binary64.col_ok in Hcol. unfold Binary64.colSpan_ok in Hspan.
  unfold Binary64.row_ok in Hrw. unfold Binary64.rowSpan_ok in Hrsp.
  rewrite Hcol, Hspan, Hrw, Hrsp.
  unfold Math_max, Binary64.GRID_COLUMNS.
  replace (Z.max 1 (c - 1 + 1)) with c by lia.
  replace (Z.max 1 (rw - 1 + 1)) with rw by lia.
  replace (Z.max 1 cs) with cs by lia.
  replace (Z.max 1 rs) with rs by lia.
  destruct (Z.gtb_spec (c + cs) (10 + 1)); [lia|].
  f_equal. f_equal; lia.
Qed.

Lemma roundTrip_measured_binary64_witness :
  let r := mkGridRect 9 3 2 4 in
  let m := Binary64.calculateGridMath (Some 896) Binary64.initialGridMath in
  let p := Binary64.gridToPixel r m in
  Binary64.pixelToGrid (Binary64.left p) (Binary64.top p)
                       (Binary64.width p) (Binary64.height p) m
  = Some r.
Proof.
  apply (roundTrip_measured_binary64 896 Binary64.initialGridMath (mkGridRect 9 3 2 4)).
  - lia.
  - now apply (bool_decide_unpack _).
  - cbn; lia.
  - cbn; lia.
Defined.

(** The bound of 304 pixels is where the cell becomes as wide as the gap:
    one pixel below, and in the 244 pixel container whose cells are 10
    pixels wide, a two-column rectangle comes back one column wide in
    binary64 as well. *)
Lemma roundTrip_binary64_below_304 :
  let m303 := Binary64.calculateGridMath (Some 303) Binary64.initialGridMath in
  let m244 := Binary64.calculateGridMath (Some 244) Binary64.initialGridMath in
  Binary64.roundTrip (mkGridRect 1 1 2 1) m303 = Some (mkGridRect 1 1 1 1) /\
  Binary64.roundTrip (mkGridRect 1 1 2 1) m244 = Some (mkGridRect 1 1 1 1).
Proof. split; vm_compute; reflexivity. Qed.

(** A gap no wider than the cell is not enough in binary64: with the cell
    width and the gap both 3.3, the quotient of the width of two columns
    by the pitch rounds to just below one and a half, and the rectangle
    comes back one column wide. *)
Lemma roundTrip_binary64_tie :
  let g := PrimFloat.div (Binary64.ofZ 33) (Binary64.ofZ 10) in
  let m := Binary64.mkGridMath g Binary64.ROW_HEIGHT g (Binary64.ofZ 63) in
  Binary64.roundTrip (mkGridRect 1 1 2 1) m = Some (mkGridRect 1 1 1 1).
Proof. vm_compute. reflexivity. Qed.

(** C1, as stated, fails: with a gap wider than the cell a two-column
    rectangle comes back one column wide. *)
Lemma roundTrip_fails_when_gap_exceeds_cell :
  let r := mkGridRect 1 1 2 1 in
  valid_rect r /\ positive_math math10 /\
  roundTrip r math10 = mkGridRect 1 1 1 1 /\
  roundTrip r math10 <> r.
Proof.
  cbv zeta. split; [|split; [|split]].
  - unfold valid_rect, GRID_COLUMNS; cbn; lia.
  - unfold positive_math; cbn; lra.
  - vm_compute. reflexivity.
  - vm_compute. discriminate.
Qed.

End RoundTrip.

(** ** Snapping and clamping *)

Section Snapping.
Import JS.

Lemma Math_maxQ_lower (a b : Q) : (a <= Math_maxQ a b)%Q.
Proof.
  unfold Math_maxQ. destruct (Qle_bool a b) eqn:E.
  - now apply Qle_bool_iff.
  - apply Qle_refl.
Qed.

Lemma Math_maxQ_upper (a b c : Q) :
  (a <= c)%Q -> (b <= c)%Q -> (Math_maxQ a b <= c)%Q.
Proof. intros Ha Hb. unfold Math_maxQ. now destruct (Qle_bool a b). Qed.

Lemma Math_minQ_upper (a b : Q) : (Math_minQ a b <= a)%Q.
Proof.
  unfold Math_minQ. destruct (Qle_bool a b) eqn:E.
  - apply Qle_refl.
  - destruct (Qlt_le_dec b a) as [Hlt|Hle].
    + now apply Qlt_le_weak.
    + apply Qle_bool_iff in Hle. congruence.
Qed.

(** *** grid/utils/snapping.ts: the variant that clamps the column *)

Lemma snapToGrid_within_bounds (x y width height cellWidth : Q) :
  ~ (cellWidth + UtilsSnapping.GRID_GAP == 0)%Q ->
  let r := UtilsSnapping.snapToGrid x y width height cellWidth in
  UtilsSnapping.isWithinBounds (col r) (row r) (colSpan r) (rowSpan r) = true.
Proof.
  intros _. cbv zeta. unfold UtilsSnapping.snapToGrid, UtilsSnapping.isWithinBounds.
  cbv beta iota zeta delta [col row colSpan rowSpan].
  unfold Math_max, Math_min, UtilsSnapping.GRID_COLUMNS.
  set (c := Math_round (x / (cellWidth + UtilsSnapping.GRID_GAP)) + 1).
  set (s := Math_round (width / (cellWidth + UtilsSnapping.GRID_GAP))).
  repeat (apply andb_true_intro; split); lia.
Qed.

Lemma clampToGrid_past_last_column (c r cs rs : Z) :
  c > UtilsSnapping.GRID_COLUMNS ->
  UtilsSnapping.clampToGrid c r cs rs =
    mkGridRect UtilsSnapping.GRID_COLUMNS (Z.max 1 r) 1 (Z.max 1 rs).
Proof.
  unfold UtilsSnapping.clampToGrid, UtilsSnapping.GRID_COLUMNS, Math_max.
  intros Hc.
  replace (Z.max 1 c) with c by lia.
  destruct (Z.gtb_spec c 10); [|lia].
  now destruct (c + Z.max 1 cs - 1 >? 10).
Qed.

Lemma clampToGrid_within_bounds (c r cs rs : Z) :
  let g := UtilsSnapping.clampToGrid c r cs rs in
  UtilsSnapping.isWithinBounds (col g) (row g) (colSpan g) (rowSpan g) = true.
Proof.
  cbv zeta. unfold UtilsSnapping.clampToGrid, UtilsSnapping.isWithinBounds.
  unfold UtilsSnapping.GRID_COLUMNS, Math_max.
  destruct (Z.gtb_spec (Z.max 1 c) 10);
    destruct (Z.gtb_spec (Z.max 1 c + Z.max 1 cs - 1) 10);
    cbv beta iota zeta delta [col row colSpan rowSpan];
    repeat (apply andb_true_intro; split); lia.
Qed.

(** The deselect path, snapping then clamping, stays within bounds. *)
Lemma snapAndClamp_within_bounds (x y width height cellWidth : Q) :
  ~ (cellWidth + UtilsSnapping.GRID_GAP == 0)%Q ->
  let g := UtilsSnapping.snapAndClamp x y width height cellWidth in
  UtilsSnapping.isWithinBounds (col g) (row g) (colSpan g) (rowSpan g) = true.
Proof. intros _. apply clampToGrid_within_bounds. Qed.

Lemma snapToGrid_past_last_column (x y width height cellWidth : Q) :
  ~ (cellWidth + UtilsSnapping.GRID_GAP == 0)%Q ->
  Math_round (x / (cellWidth + UtilsSnapping.GRID_GAP)) + 1 > UtilsSnapping.GRID_COLUMNS ->
  let r := UtilsSnapping.snapToGrid x y width height cellWidth in
  col r = UtilsSnapping.GRID_COLUMNS /\ colSpan r = 1.
Proof.
  intros _. cbv zeta. unfold UtilsSnapping.snapToGrid.
  cbv beta iota zeta delta [col row colSpan rowSpan].
  unfold Math_max, Math_min, UtilsSnapping.GRID_COLUMNS. lia.
Qed.

(** *** grid/snapping.ts: the variant without an upper clamp on the column *)

Import GridSnapping.

Lemma pixelToGrid_spans (x y w h : Q) (m : GridMath) :
  let r := pixelToGrid x y w h m in
  1 <= col r /\ 1 <= row r /\ 1 <= colSpan r <= GRID_COLUMNS /\ 1 <= rowSpan r.
Proof.
  cbv zeta. unfold pixelToGrid.
  cbv beta iota zeta delta [col row colSpan rowSpan].
  unfold Math_max, GRID_COLUMNS.
  set (c := Math_round (x / (cellWidth m + gap m)) + 1).
  set (s := Math_round (w / (cellWidth m + gap m))).
  destruct (Z.gtb_spec (Z.max 1 c + Z.max 1 s) (10 + 1)); lia.
Qed.

(** Where the snapped column is on the grid, [pixelToGrid] keeps the Box
    invariants. *)
Lemma pixelToGrid_valid_on_grid (x y w h : Q) (m : GridMath) :
  ~ (cellWidth m + gap m == 0)%Q -> ~ (rowHeight m + gap m == 0)%Q ->
  Math_round (x / (cellWidth m + gap m)) + 1 <= GRID_COLUMNS ->
  valid_rect (pixelToGrid x y w h m).
Proof.
  intros _ _ Hc. unfold valid_rect, pixelToGrid.
  cbv beta iota zeta delta [col row colSpan rowSpan].
  unfold Math_max, GRID_COLUMNS in *.
  set (c := Math_round (x / (cellWidth m + gap m)) + 1) in *.
  set (s := Math_round (w / (cellWidth m + gap m))).
  destruct (Z.gtb_spec (Z.max 1 c + Z.max 1 s) (10 + 1)); lia.
Qed.

(** C2, the failing input.  A rectangle dragged eleven cell pitches to the
    right snaps to column 12 with span 1: [pixelToGrid] never bounds the
    column from above, so the result leaves the ten-column grid and breaks
    [col + colSpan - 1 <= GRID_COLUMNS]. *)
Theorem pixelToGrid_leaves_grid :
  pixelToGrid 1056 0 80 60 math80 = mkGridRect 12 1 1 1 /\
  ~ valid_rect (pixelToGrid 1056 0 80 60 math80).
Proof.
  split; [vm_compute; reflexivity|].
  intros (_ & _ & _ & _ & H). vm_compute in H. now apply H.
Qed.

(** C9, the failing input.  A start column beyond the grid (here 22) is
    returned as it is by [pixelToGrid]; only the span is forced to 1. *)
Theorem pixelToGrid_keeps_column_past_grid :
  let r := pixelToGrid 2000 0 300 60 math80 in
  col r = 22 /\ colSpan r = 1 /\ col r <> GRID_COLUMNS.
Proof. vm_compute. repeat split. discriminate. Qed.

(** *** Size limits *)

Import GridUtils.

Lemma constrainToGrid_bounds (w h : Q) :
  let s := constrainToGrid w h in
  (CELL_SIZE <= size_width s /\ size_width s <= inject_Z GridUtils.GRID_COLUMNS * CELL_SIZE /\
   CELL_SIZE <= size_height s /\ size_height s <= 5 * CELL_SIZE)%Q.
Proof.
  cbv zeta. unfold constrainToGrid.
  cbv beta iota zeta delta [size_width size_height].
  repeat split.
  - apply Math_maxQ_lower.
  - apply Math_maxQ_upper; [|apply Math_minQ_upper].
    vm_compute. discriminate.
  - apply Math_maxQ_lower.
  - apply Math_maxQ_upper; [|apply Math_minQ_upper].
    unfold CELL_SIZE. lra.
Qed.

(** C4, as amended.  The free-mode resize constraint returns a height
    between 1 and 5 cells and a width of at least 1 cell; the snapping
    operation, for a non-zero cell pitch, returns [colSpan] in
    [1, GRID_COLUMNS] and [rowSpan >= 1], with no upper bound of 5 on
    either. *)
Theorem size_limits_enforced :
  (forall w h : Q,
     let s := constrainToGrid w h in
     (CELL_SIZE <= size_height s /\ size_height s <= 5 * CELL_SIZE /\
      CELL_SIZE <= size_width s)%Q) /\
  (forall (x y w h : Q) (m : GridMath),
     ~ (cellWidth m + gap m == 0)%Q -> ~ (rowHeight m + gap m == 0)%Q ->
     let r := GridSnapping.pixelToGrid x y w h m in
     1 <= colSpan r <= GridSnapping.GRID_COLUMNS /\ 1 <= rowSpan r).
Proof.
  split.
  - intros w h. pose proof (constrainToGrid_bounds w h) as H. cbv zeta in *. tauto.
  - intros x0 y0 w h m _ _. pose proof (pixelToGrid_spans x0 y0 w h m) as H.
    cbv zeta in *. tauto.
Qed.

Lemma size_limits_enforced_witness :
  let r := GridSnapping.pixelToGrid 100 100 300 200 math80 in
  1 <= colSpan r <= GridSnapping.GRID_COLUMNS /\ 1 <= rowSpan r.
Proof.
  apply (proj2 size_limits_enforced 100 100 300 200 math80)%Q.
  - intros H. vm_compute in H. discriminate.
  - intros H. vm_compute in H. discriminate.
Defined.

(** C4, as stated, fails: snapping a rectangle six rows tall yields
    [rowSpan = 6], and the resize constraint lets a width of ten cells
    through. *)
Lemma spans_exceed_five :
  rowSpan (GridSnapping.pixelToGrid 0 0 80 440 math80) = 6 /\
  colSpan (GridSnapping.pixelToGrid 0 0 752 60 math80) = 8 /\
  (size_width (constrainToGrid 800 80) == 10 * CELL_SIZE)%Q.
Proof. vm_compute. repeat split. Qed.

End Snapping.

(** ** Collision detection and resolution *)

Section Collisions.
Import JS GridUtils GridSystem.

(** C7.  [doGridPositionsOverlap] is exactly the open-interval test on
    both axes, so two positions that only touch along an edge (the end of
    one is the start of the other) do not overlap.  A [GridPosition]
    stores the exclusive ends, start plus span. *)
Theorem doGridPositionsOverlap_open_intervals :
  (forall a b : GridPosition,
     doGridPositionsOverlap a b = true <->
     colStart a < colEnd b /\ colEnd a > colStart b /\
     rowStart a < rowEnd b /\ rowEnd a > rowStart b) /\
  (forall a b : GridPosition,
     colEnd a = colStart b \/ rowEnd a = rowStart b ->
     doGridPositionsOverlap a b = false).
Proof.
  split.
  - intros a b. unfold doGridPositionsOverlap.
    rewrite !andb_true_iff, !Z.ltb_lt, !Z.gtb_gt. tauto.
  - intros a b Htouch. unfold doGridPositionsOverlap.
    apply not_true_is_false. rewrite !andb_true_iff, !Z.ltb_lt, !Z.gtb_gt. lia.
Qed.

Lemma doGridPositionsOverlap_open_intervals_witness :
  doGridPositionsOverlap (mkGridPosition 1 3 1 2) (mkGridPosition 3 5 1 2) = false.
Proof.
  apply (proj2 doGridPositionsOverlap_open_intervals
           (mkGridPosition 1 3 1 2) (mkGridPosition 3 5 1 2)).
  left. reflexivity.
Defined.

Section Resolve.
Variable boxes : list Box.
Variable selectedBoxIds : gset string.
Variable id0 : string.

Let collides := checkCollision boxes selectedBoxIds id0.
Let search := findPosition boxes selectedBoxIds.

Lemma shiftRows_0 (p : GridPosition) : shiftRows 0 p = p.
Proof. destruct p. unfold shiftRows. cbn. f_equal; lia. Qed.

Lemma shiftRows_shiftDown (k : Z) (p : GridPosition) :
  shiftRows k (shiftDown p) = shiftRows (k + 1) p.
Proof. destruct p. unfold shiftRows, shiftDown. cbn. f_equal; lia. Qed.

(** The loop stops at the first free position when that takes fewer than
    100 shifts. *)
Lemma findPosition_hit (k : nat) :
  forall (fuel : nat) (p : GridPosition) (a : Z),
    (k < fuel)%nat -> a + Z.of_nat k < 100 ->
    (forall j : nat, (j < k)%nat -> collides (shiftRows (Z.of_nat j) p) = true) ->
    collides (shiftRows (Z.of_nat k) p) = false ->
    search fuel id0 p a = (shiftRows (Z.of_nat k) p, a + Z.of_nat k).
Proof.
  induction k as [|k IH]; intros fuel p a Hfuel Ha Hbusy Hfree.
  - destruct fuel as [|fuel]; [lia|].
    cbn [Z.of_nat] in *. rewrite shiftRows_0 in *.
    unfold search. cbn [findPosition]. fold collides. rewrite Hfree. cbn.
    f_equal. lia.
  - destruct fuel as [|fuel]; [lia|].
    unfold search. cbn [findPosition]. fold collides. fold search.
    pose proof (Hbusy O ltac:(lia)) as H0. cbn [Z.of_nat] in H0.
    rewrite shiftRows_0 in H0. rewrite H0.
    destruct (Z.ltb_spec a 100); [|lia]. cbn [andb].
    rewrite (IH fuel (shiftDown p) (a + 1)).
    + rewrite shiftRows_shiftDown. f_equal; [f_equal|]; lia.
    + lia.
    + lia.
    + intros j Hj. rewrite shiftRows_shiftDown.
      replace (Z.of_nat j + 1) with (Z.of_nat (S j)) by lia.
      apply Hbusy. lia.
    + rewrite shiftRows_shiftDown.
      replace (Z.of_nat k + 1) with (Z.of_nat (S k)) by lia.
      exact Hfree.
Qed.

(** The loop gives up with [attempts = 100] when the positions it tries
    are all taken. *)
Lemma findPosition_exhausted (n : nat) :
  forall (fuel : nat) (p : GridPosition) (a : Z),
    (n <= fuel)%nat -> a + Z.of_nat n = 100 ->
    (forall j : nat, (j < n)%nat -> collides (shiftRows (Z.of_nat j) p) = true) ->
    search fuel id0 p a = (shiftRows (Z.of_nat n) p, 100).
Proof.
  induction n as [|n IH]; intros fuel p a Hfuel Ha Hbusy.
  - cbn [Z.of_nat] in *. rewrite shiftRows_0.
    assert (a = 100) as -> by lia.
    destruct fuel as [|fuel]; [reflexivity|].
    unfold search. cbn [findPosition]. now rewrite andb_false_r.
  - destruct fuel as [|fuel]; [lia|].
    unfold search. cbn [findPosition]. fold collides. fold search.
    pose proof (Hbusy O ltac:(lia)) as H0. cbn [Z.of_nat] in H0.
    rewrite shiftRows_0 in H0. rewrite H0.
    destruct (Z.ltb_spec a 100); [|lia]. cbn [andb].
    rewrite (IH fuel (shiftDown p) (a + 1)).
    + rewrite shiftRows_shiftDown. f_equal. f_equal. lia.
    + lia.
    + lia.
    + intros j Hj. rewrite shiftRows_shiftDown.
      replace (Z.of_nat j + 1) with (Z.of_nat (S j)) by lia.
      apply Hbusy. lia.
Qed.

(** The loop bound of 100 iterations is never what stops the search: on
    exit the loop condition is false. *)
Lemma findPosition_exit (fuel : nat) :
  forall (p : GridPosition) (a : Z),
    100 - a <= Z.of_nat fuel ->
    let '(p', a') := search fuel id0 p a in
    collides p' && (a' <? 100) = false.
Proof.
  induction fuel as [|fuel IH]; intros p a Hfuel.
  - cbn. destruct (Z.ltb_spec a 100); [lia|]. apply andb_false_r.
  - unfold search. cbn [findPosition]. fold collides. fold search.
    destruct (collides p && (a <? 100)) eqn:E.
    + apply IH. lia.
    + exact E.
Qed.

Lemma handleBoxUpdate_shifted (cand : GridPosition) (k : Z) :
  0 <= k < 100 ->
  (forall j, 0 <= j < k -> collides (shiftRows j cand) = true) ->
  collides (shiftRows k cand) = false ->
  handleBoxUpdate boxes selectedBoxIds id0 cand None
  = Some (mkBoxUpdate id0 (shiftRows k cand) None).
Proof.
  intros Hk Hbusy Hfree. unfold handleBoxUpdate. cbn [negb andb bool_decide].
  replace (bool_decide (is_Some (@None BoxPosition))) with false
    by (symmetry; apply bool_decide_eq_false; intros [? ?]; discriminate).
  cbn [negb andb]. fold collides.
  destruct (collides cand) eqn:Hc.
  - fold search.
    rewrite (findPosition_hit (Z.to_nat k) 100 cand 0).
    + rewrite Z2Nat.id by lia. rewrite Z.add_0_l.
      destruct (Z.ltb_spec k 100); [reflexivity|lia].
    + lia.
    + lia.
    + intros j Hj. apply Hbusy. lia.
    + rewrite Z2Nat.id by lia. exact Hfree.
  - assert (k = 0) as ->.
    { destruct (Z.eq_dec k 0) as [|Hne]; [assumption|].
      rewrite <- (shiftRows_0 cand) in Hc. rewrite Hbusy in Hc by lia. discriminate. }
    now rewrite shiftRows_0.
Qed.

Lemma handleBoxUpdate_fallback (cand : GridPosition) :
  (forall j, 0 <= j < 100 -> collides (shiftRows j cand) = true) ->
  handleBoxUpdate boxes selectedBoxIds id0 cand None
  = option_map (fun b => mkBoxUpdate id0 (gridPosition b) None)
      (find (fun b => String.eqb (id b) id0) boxes).
Proof.
  intros Hbusy. unfold handleBoxUpdate.
  replace (bool_decide (is_Some (@None BoxPosition))) with false
    by (symmetry; apply bool_decide_eq_false; intros [? ?]; discriminate).
  cbn [negb andb]. fold collides.
  pose proof (Hbusy 0 ltac:(lia)) as H0. rewrite shiftRows_0 in H0. rewrite H0.
  fold search. rewrite (findPosition_exhausted 100 100 cand 0).
  - cbn. now destruct (find _ boxes).
  - lia.
  - lia.
  - intros j Hj. apply Hbusy. lia.
Qed.

End Resolve.

(** C3, as amended.  With no absolute position given, [handleBoxUpdate]
    passes on the candidate moved down by the least number [k < 100] of
    rows that frees it from every other unselected box, columns unchanged;
    if the candidate and all of its first 100 shifts collide, it passes on
    the position stored for the acting box, as it is, and makes no call
    when the id is unknown. *)
Theorem handleBoxUpdate_resolution
    (boxes : list Box) (selectedBoxIds : gset string) (id0 : string)
    (cand : GridPosition) :
  (forall k : Z,
     0 <= k < 100 ->
     (forall j, 0 <= j < k ->
        checkCollision boxes selectedBoxIds id0 (shiftRows j cand) = true) ->
     checkCollision boxes selectedBoxIds id0 (shiftRows k cand) = false ->
     exists p,
       handleBoxUpdate boxes selectedBoxIds id0 cand None
         = Some (mkBoxUpdate id0 p None) /\
       p = shiftRows k cand /\
       colStart p = colStart cand /\ colEnd p = colEnd cand /\
       checkCollision boxes selectedBoxIds id0 p = false) /\
  ((forall j, 0 <= j <= 100 ->
      checkCollision boxes selectedBoxIds id0 (shiftRows j cand) = true) ->
   handleBoxUpdate boxes selectedBoxIds id0 cand None
   = option_map (fun b => mkBoxUpdate id0 (gridPosition b) None)
       (find (fun b => String.eqb (id b) id0) boxes)).
Proof.
  split.
  - intros k Hk Hbusy Hfree. exists (shiftRows k cand).
    rewrite (handleBoxUpdate_shifted _ _ _ cand k) by assumption.
    repeat split; assumption.
  - intros Hbusy. apply handleBoxUpdate_fallback.
    intros j Hj. apply Hbusy. lia.
Qed.

Lemma handleBoxUpdate_resolution_witness :
  exists p,
    handleBoxUpdate (stack 1 ++ [actor]) {["x"]} "x" (mkGridPosition 1 3 4 5) None
      = Some (mkBoxUpdate "x" p None) /\
    p = shiftRows 2 (mkGridPosition 1 3 4 5) /\
    colStart p = 1 /\ colEnd p = 3 /\
    checkCollision (stack 1 ++ [actor]) {["x"]} "x" p = false.
Proof.
  apply (proj1 (handleBoxUpdate_resolution (stack 1 ++ [actor]) {["x"]} "x"
                  (mkGridPosition 1 3 4 5)) 2).
  - lia.
  - intros j Hj. assert (j = 0 \/ j = 1) as [-> | ->] by lia; reflexivity.
  - reflexivity.
Defined.

(** C3, as stated, fails: when the search gives up, the position passed on
    is the stored one, unchecked.  Here every position is valid and no two
    unselected boxes overlap beforehand, yet the position passed on for
    the acting box overlaps the unselected box at the top of the stack. *)
Lemma fallback_keeps_overlap :
  let boxes := stack 21 ++ [actor] in
  forallb (fun b => isValidGridPosition (gridPosition b)) boxes = true /\
  noOverlap boxes {["x"]} = true /\
  handleBoxUpdate boxes {["x"]} "x" (mkGridPosition 1 3 1 2) None
    = Some (mkBoxUpdate "x" (gridPosition actor) None) /\
  checkCollision boxes {["x"]} "x" (gridPosition actor) = true.
Proof. vm_compute. repeat split; reflexivity. Qed.

(** The search also gives up when the hundredth shift would have been
    free: the stack of 20 boxes ends at row 100, the candidate fits at row
    101, and the stored position is passed on all the same. *)
Lemma hundredth_shift_discarded :
  let boxes := stack 20 ++ [actor] in
  checkCollision boxes {["x"]} "x" (shiftRows 100 (mkGridPosition 1 3 1 2)) = false /\
  handleBoxUpdate boxes {["x"]} "x" (mkGridPosition 1 3 1 2) None
    = Some (mkBoxUpdate "x" (gridPosition actor) None).
Proof. vm_compute. split; reflexivity. Qed.

End Collisions.

(** ** The page: adding and dragging boxes *)

Section PageBoxes.
Import JS GridSnapping Page.

Lemma Math_max_list_init (xs : list Z) (x : Z) : x <= Math_max_list x xs.
Proof.
  unfold Math_max_list. revert x.
  induction xs as [|y ys IH]; intros x; cbn; [lia|].
  specialize (IH (Z.max x y)). lia.
Qed.

Lemma Math_max_list_upper (xs : list Z) (x z : Z) :
  z ∈ xs -> z <= Math_max_list x xs.
Proof.
  unfold Math_max_list. revert x.
  induction xs as [|y ys IH]; intros x Hin.
  - now apply elem_of_nil in Hin.
  - apply elem_of_cons in Hin as [->|Hin]; cbn.
    + pose proof (Math_max_list_init ys (Z.max x y)) as H.
      unfold Math_max_list in H. lia.
    + now apply IH.
Qed.

Lemma Math_max_list_attained (xs : list Z) (x : Z) :
  Math_max_list x xs ∈ x :: xs.
Proof.
  unfold Math_max_list. revert x.
  induction xs as [|y ys IH]; intros x; cbn.
  - apply list_elem_of_here.
  - specialize (IH (Z.max x y)).
    apply elem_of_cons in IH as [Heq|Hin].
    + rewrite Heq. destruct (Z.max_spec x y) as [[_ ->]|[_ ->]].
      * apply list_elem_of_further, list_elem_of_here.
      * apply list_elem_of_here.
    + now do 2 apply list_elem_of_further.
Qed.

Lemma maxRow_upper (l : list Box) (b : Box) : b ∈ l -> lastRow b <= maxRow l.
Proof.
  intros Hin. unfold maxRow. destruct l as [|b0 l]; cbn.
  - now apply elem_of_nil in Hin.
  - apply elem_of_cons in Hin as [->|Hin].
    + apply Math_max_list_init.
    + apply Math_max_list_upper. apply list_elem_of_In, in_map, list_elem_of_In, Hin.
Qed.

Lemma maxRow_attained (l : list Box) :
  l <> [] -> exists b, b ∈ l /\ maxRow l = lastRow b.
Proof.
  intros Hne. unfold maxRow. destruct l as [|b0 l]; [contradiction|]. cbn.
  pose proof (Math_max_list_attained (map lastRow l) (lastRow b0)) as Hin.
  apply elem_of_cons in Hin as [Heq|Hin].
  - exists b0. split; [apply list_elem_of_here|exact Heq].
  - apply list_elem_of_In, in_map_iff in Hin as (b & Hb & Hbin).
    exists b. split; [apply list_elem_of_further, list_elem_of_In, Hbin|now symmetry].
Qed.

(** C8.  [handleAddBox] appends one box and leaves the existing ones as
    they are; the new box sits at column 1, spans 2 columns and 1 row, and
    its row is one past the greatest [row + rowSpan - 1] of the existing
    boxes: it lies below the last row of every existing box and directly
    below the last row of one of them; it is row 1 on an empty layout and
    row [M + 1] when the greatest occupied row is [M], so row 4 when that
    is 3. *)
Theorem handleAddBox_appends (st : State Box) :
  exists newBox : Box,
    boxes (handleAddBox st) = boxes st ++ [newBox] /\
    col (rect newBox) = 1 /\ colSpan (rect newBox) = 2 /\
    rowSpan (rect newBox) = 1 /\
    (forall b, b ∈ boxes st ->
       row (rect b) + rowSpan (rect b) - 1 < row (rect newBox)) /\
    (boxes st <> [] ->
     exists b, b ∈ boxes st /\
       row (rect newBox) = (row (rect b) + rowSpan (rect b) - 1) + 1) /\
    (boxes st = [] -> row (rect newBox) = 1) /\
    (forall M : Z,
       (forall b, b ∈ boxes st -> row (rect b) + rowSpan (rect b) - 1 <= M) ->
       (exists b, b ∈ boxes st /\ row (rect b) + rowSpan (rect b) - 1 = M) ->
       row (rect newBox) = M + 1).
Proof.
  eexists. split; [reflexivity|]. cbn.
  split; [reflexivity|]. split; [reflexivity|]. split; [reflexivity|].
  split; [|split; [|split]].
  - intros b Hb. pose proof (maxRow_upper _ _ Hb) as Hup.
    unfold lastRow in Hup. lia.
  - intros Hne. destruct (maxRow_attained (boxes st) Hne) as (b & Hb & Heq).
    exists b. split; [exact Hb|]. rewrite Heq. reflexivity.
  - intros ->. reflexivity.
  - intros M Hle (b & Hb & HbM).
    pose proof (maxRow_upper _ _ Hb) as Hup. unfold lastRow in Hup.
    destruct (maxRow_attained (boxes st)) as (b' & Hb' & Heq).
    { intros E. rewrite E in Hb. now apply elem_of_nil in Hb. }
    specialize (Hle b' Hb'). unfold lastRow in Heq. lia.
Qed.

Lemma handleAddBox_appends_witness :
  exists newBox : Box,
    boxes (handleAddBox initialState) = initialBoxes ++ [newBox] /\
    col (rect newBox) = 1 /\ colSpan (rect newBox) = 2 /\
    rowSpan (rect newBox) = 1 /\ row (rect newBox) = 4.
Proof.
  destruct (handleAddBox_appends initialState)
    as (newBox & Happ & Hcol & Hcs & Hrs & _ & _ & _ & Hmax).
  exists newBox. repeat split; try assumption.
  apply (Hmax 3).
  - intros b Hb. cbn in Hb. unfold initialBoxes in Hb.
    repeat (apply elem_of_cons in Hb as [->|Hb]; [vm_compute; discriminate|]).
    now apply elem_of_nil in Hb.
  - exists (mkBox "4" (mkGridRect 1 2 2 2)). split; [|reflexivity].
    cbn. unfold initialBoxes. do 3 apply list_elem_of_further. apply list_elem_of_here.
Defined.





End PageBoxes.

(** ** Import *)

Section ImportLayout.
Import Page.

(** C5, as amended.  A payload that parses to an array replaces the
    Layout by its elements and clears the Selection, silently; a payload
    that parses to anything else, an object carrying a [boxes] array
    included, changes nothing and reports nothing; malformed JSON reports
    ["Invalid JSON file"] and leaves Layout and Selection as they were. *)
Theorem handleImport_outcomes (st : State Json.any) :
  (forall elems : list Json.any,
     let st' := handleImport (Some (Some (Json.Arr elems))) st in
     boxes st' = elems /\ selectedIds st' = ∅ /\ alerts st' = alerts st) /\
  (forall v : Json.any,
     Json.Array_isArray v = false -> handleImport (Some (Some v)) st = st) /\
  (let st' := handleImport (Some None) st in
   boxes st' = boxes st /\ selectedIds st' = selectedIds st /\
   nextId st' = nextId st /\
   alerts st' = alerts st ++ ["Invalid JSON file"]).
Proof.
  split; [|split].
  - intros elems. cbn. auto.
  - intros v Hv. cbn. now rewrite Hv.
  - cbn. auto.
Qed.

Lemma handleImport_outcomes_witness :
  handleImport (Some (Some envelope)) demoState = demoState.
Proof.
  apply (proj1 (proj2 (handleImport_outcomes demoState)) envelope).
  reflexivity.
Defined.

(** C5, as stated, fails: the enveloped payload does not replace the
    Layout nor clear the Selection, and a payload without any array, [{}],
    is dropped without an error being reported. *)
Lemma envelope_not_imported_and_shape_error_silent :
  let st' := handleImport (Some (Some envelope)) demoState in
  let st'' := handleImport (Some (Some (Json.Obj []))) demoState in
  boxes st' = map toJson initialBoxes /\
  boxes st' <> Json.elements (Json.Arr [toJson (GridSnapping.mkBox "x" (mkGridRect 1 1 2 1))]) /\
  selectedIds st' = {["2"]} /\
  alerts st'' = [].
Proof.
  cbv zeta. repeat split.
  intros H. apply (f_equal length) in H. cbn in H. discriminate.
Qed.

End ImportLayout.

(** ** History *)

Section History.
Import JS HistoryPage.

Lemma index_Some_range {A : Type} (l : list A) (i : Z) (a : A) :
  index l i = Some a -> 0 <= i < Z.of_nat (length l).
Proof.
  unfold index. destruct (Z.ltb_spec i 0); [discriminate|].
  intros Hl. apply lookup_lt_Some in Hl. lia.
Qed.

Lemma index_in_range {A : Type} (l : list A) (i : Z) :
  0 <= i < Z.of_nat (length l) -> exists a, index l i = Some a.
Proof.
  intros Hi. unfold index. destruct (Z.ltb_spec i 0); [lia|].
  destruct (lookup_lt_is_Some_2 l (Z.to_nat i)) as [a Ha]; [lia|].
  now exists a.
Qed.

Lemma slice0_take {A : Type} (l : list A) (e : Z) :
  0 <= e <= Z.of_nat (length l) -> slice0 l e = take (Z.to_nat e) l.
Proof.
  intros He. unfold slice0. destruct (Z.ltb_spec e 0); [lia|].
  now rewrite Z.min_l by lia.
Qed.

(** With the cursor on an entry, a push drops exactly the entries past it. *)
Lemma saveToHistory_truncates (newBoxes : list BoxData) (newSel : gset string)
    (st : State) :
  cursor_in_range st ->
  history (saveToHistory newBoxes newSel st)
  = take (Z.to_nat (historyIndex st + 1)) (history st)
    ++ [HistoryState.mk newBoxes newSel] /\
  historyIndex (saveToHistory newBoxes newSel st) = historyIndex st + 1.
Proof.
  intros [Hlo Hhi]. unfold saveToHistory. cbn [history historyIndex].
  rewrite slice0_take by lia. split; [reflexivity|].
  rewrite length_app, length_take. cbn [length]. lia.
Qed.

Lemma repeatedly_noop (n : nat) (handler : State -> option State) (st : State) :
  handler st = Some st -> repeatedly n handler st = Some st.
Proof. intros Hst. induction n as [|n IH]; cbn; [reflexivity|now rewrite Hst]. Qed.

Lemma handleRedo_after_save (newBoxes : list BoxData) (newSel : gset string)
    (st : State) :
  handleRedo (saveToHistory newBoxes newSel st)
  = Some (saveToHistory newBoxes newSel st).
Proof.
  unfold handleRedo, saveToHistory. cbn [history historyIndex].
  now rewrite Z.ltb_irrefl.
Qed.

Lemma handleUndo_handleRedo (st : State) (h : HistoryState.t) :
  0 < historyIndex st ->
  index (history st) (historyIndex st) = Some h ->
  exists st1 st2 : State,
    handleUndo st = Some st1 /\ handleRedo st1 = Some st2 /\
    boxes st2 = HistoryState.boxes h /\
    selectedBoxIds st2 = HistoryState.selectedBoxIds h /\
    history st2 = history st /\ historyIndex st2 = historyIndex st.
Proof.
  intros Hpos Hh. pose proof (index_Some_range _ _ _ Hh) as Hrange.
  destruct (index_in_range (history st) (historyIndex st - 1)) as [prev Hprev]; [lia|].
  eexists. eexists. split.
  - unfold handleUndo. destruct (Z.gtb_spec (historyIndex st) 0); [|lia].
    rewrite Hprev. reflexivity.
  - unfold handleRedo. cbn [history historyIndex].
    destruct (Z.ltb_spec (historyIndex st - 1) (Z.of_nat (length (history st)) - 1)); [|lia].
    replace (historyIndex st - 1 + 1) with (historyIndex st) by lia.
    rewrite Hh. cbn. repeat split; reflexivity.
Qed.

(** C6, as amended.  History is linear.  A push keeps the entries up to
    the cursor, drops the ones past it, appends the new snapshot and puts
    the cursor on it; so after any [N] undos followed by a push, [N]
    redos change nothing.  When the cursor is past the earliest entry, an
    undo followed by a redo succeeds, leaves history and cursor as they
    were and shows the Layout and Selection of the snapshot under the
    cursor.  An undo at the earliest entry and a redo at the latest are
    no-ops and raise nothing. *)
Theorem history_is_linear :
  (forall (newBoxes : list BoxData) (newSel : gset string) (st : State),
     let st' := saveToHistory newBoxes newSel st in
     history st' = slice0 (history st) (historyIndex st + 1)
                   ++ [HistoryState.mk newBoxes newSel] /\
     historyIndex st' = Z.of_nat (length (history st')) - 1) /\
  (forall (N : nat) (newBoxes : list BoxData) (newSel : gset string)
          (st stN : State),
     repeatedly N handleUndo st = Some stN ->
     let st' := saveToHistory newBoxes newSel stN in
     handleRedo st' = Some st' /\ repeatedly N handleRedo st' = Some st') /\
  (forall (st : State) (h : HistoryState.t),
     0 < historyIndex st ->
     index (history st) (historyIndex st) = Some h ->
     exists st1 st2 : State,
       handleUndo st = Some st1 /\ handleRedo st1 = Some st2 /\
       boxes st2 = HistoryState.boxes h /\
       selectedBoxIds st2 = HistoryState.selectedBoxIds h /\
       history st2 = history st /\ historyIndex st2 = historyIndex st) /\
  (forall st : State, historyIndex st <= 0 -> handleUndo st = Some st) /\
  (forall st : State,
     historyIndex st >= Z.of_nat (length (history st)) - 1 ->
     handleRedo st = Some st).
Proof.
  split; [|split; [|split; [|split]]].
  - intros newBoxes newSel st. cbv zeta. split; reflexivity.
  - intros N newBoxes newSel st stN _. cbv zeta.
    pose proof (handleRedo_after_save newBoxes newSel stN) as Hredo.
    split; [exact Hredo|]. now apply repeatedly_noop.
  - apply handleUndo_handleRedo.
  - intros st Hle. unfold handleUndo.
    destruct (Z.gtb_spec (historyIndex st) 0); [lia|reflexivity].
  - intros st Hge. unfold handleRedo.
    destruct (Z.ltb_spec (historyIndex st) (Z.of_nat (length (history st)) - 1));
      [lia|reflexivity].
Qed.

Lemma history_is_linear_witness :
  exists st1 st2 : State,
    handleUndo (handleAddBox initialState) = Some st1 /\
    handleRedo st1 = Some st2 /\
    boxes st2 = boxes (handleAddBox initialState) /\
    historyIndex st2 = 1.
Proof.
  destruct (proj1 (proj2 (proj2 history_is_linear)) (handleAddBox initialState)
              (HistoryState.mk (boxes (handleAddBox initialState)) ∅)
              ltac:(vm_compute; reflexivity) eq_refl)
    as (st1 & st2 & Hu & Hr & Hb & _ & _ & Hi).
  exists st1, st2. repeat split; assumption.
Defined.

(** C6, as stated, fails at the earliest entry: after one add and one
    undo the cursor is 0, a further undo does nothing, and the redo that
    follows it moves forward to the five-box layout instead of restoring
    the four-box one. *)
Lemma undo_redo_at_earliest_entry_moves_forward :
  exists st st' : State,
    handleUndo (handleAddBox initialState) = Some st /\
    historyIndex st = 0 /\
    handleUndo st = Some st /\
    handleRedo st = Some st' /\
    length (boxes st) = 4%nat /\ length (boxes st') = 5%nat /\
    boxes st' <> boxes st.
Proof.
  eexists. eexists. split; [reflexivity|]. split; [reflexivity|].
  split; [reflexivity|]. split; [reflexivity|].
  split; [reflexivity|]. split; [reflexivity|].
  intros H. apply (f_equal length) in H. cbn in H. discriminate.
Qed.

End History.

(** * Further properties of the code *)

(** ** grid/utils: snapping and clamping *)

Section UtilsGrid.
Import JS UtilsSnapping.

Lemma isWithinBounds_spec (c r cs rs : Z) :
  isWithinBounds c r cs rs = true <->
  1 <= c /\ 1 <= r /\ c + cs - 1 <= GRID_COLUMNS /\ 0 < cs /\ 0 < rs.
Proof.
  unfold isWithinBounds.
  rewrite !andb_true_iff, !Z.geb_le, Z.leb_le, !Z.gtb_gt. lia.
Qed.

Lemma clampToGrid_fixes_bounded (c r cs rs : Z) :
  isWithinBounds c r cs rs = true -> clampToGrid c r cs rs = mkGridRect c r cs rs.
Proof.
  rewrite isWithinBounds_spec. unfold GRID_COLUMNS. intros (Hc & Hr & Hfit & Hcs & Hrs).
  unfold clampToGrid, GRID_COLUMNS, Math_max.
  rewrite !Z.max_r by lia.
  destruct (Z.gtb_spec (c + cs - 1) 10); [lia|].
  destruct (Z.gtb_spec c 10); [lia|]. reflexivity.
Qed.

(** X1.  [snapToGrid] returns, for every pixel rectangle, a rectangle that
    its sibling [isWithinBounds] accepts; a start column that would fall
    beyond the grid is pulled back to the last column with a span of 1. *)
Theorem snapToGrid_result_on_grid (x y width height cellWidth : Q) :
  ~ (cellWidth + GRID_GAP == 0)%Q ->
  let r := snapToGrid x y width height cellWidth in
  isWithinBounds (col r) (row r) (colSpan r) (rowSpan r) = true /\
  (Math_round (x / (cellWidth + GRID_GAP)) + 1 > GRID_COLUMNS ->
   col r = GRID_COLUMNS /\ colSpan r = 1).
Proof.
  intros Hd. cbv zeta. split.
  - now apply snapToGrid_within_bounds.
  - intros Hc. now apply snapToGrid_past_last_column.
Qed.

Lemma snapToGrid_result_on_grid_witness :
  let r := snapToGrid 2000 (-50) 300 10 80 in
  isWithinBounds (col r) (row r) (colSpan r) (rowSpan r) = true /\
  col r = GRID_COLUMNS /\ colSpan r = 1.
Proof.
  destruct (snapToGrid_result_on_grid 2000 (-50) 300 10 80) as [Hb Hedge].
  { intros H. vm_compute in H. discriminate. }
  split; [exact Hb|]. apply Hedge. vm_compute. reflexivity.
Defined.

(** X2.  [clampToGrid] maps every rectangle to one that [isWithinBounds]
    accepts and leaves a rectangle that is already within bounds as it
    is; so clamping twice is clamping once. *)
Theorem clampToGrid_projection :
  (forall c r cs rs : Z,
     let g := clampToGrid c r cs rs in
     isWithinBounds (col g) (row g) (colSpan g) (rowSpan g) = true) /\
  (forall c r cs rs : Z,
     isWithinBounds c r cs rs = true ->
     clampToGrid c r cs rs = mkGridRect c r cs rs) /\
  (forall c r cs rs : Z,
     let g := clampToGrid c r cs rs in
     clampToGrid (col g) (row g) (colSpan g) (rowSpan g) = g).
Proof.
  split; [|split].
  - apply clampToGrid_within_bounds.
  - apply clampToGrid_fixes_bounded.
  - intros c r cs rs. cbv zeta.
    rewrite clampToGrid_fixes_bounded by apply clampToGrid_within_bounds.
    now destruct (clampToGrid c r cs rs).
Qed.

Lemma clampToGrid_projection_witness :
  clampToGrid 9 3 2 4 = mkGridRect 9 3 2 4.
Proof.
  apply (proj1 (proj2 clampToGrid_projection) 9 3 2 4). reflexivity.
Defined.

(** X3.  On the deselect path the clamp that follows the snap changes
    nothing: [clampToGrid] applied to the result of [snapToGrid] returns
    that result. *)
Theorem clamp_after_snap_is_identity (x y width height cellWidth : Q) :
  ~ (cellWidth + GRID_GAP == 0)%Q ->
  snapAndClamp x y width height cellWidth = snapToGrid x y width height cellWidth.
Proof.
  intros Hd. unfold snapAndClamp.
  rewrite clampToGrid_fixes_bounded by now apply snapToGrid_within_bounds.
  now destruct (snapToGrid x y width height cellWidth).
Qed.

Lemma clamp_after_snap_is_identity_witness :
  snapAndClamp 500 130 200 90 80 = snapToGrid 500 130 200 90 80.
Proof.
  apply (clamp_after_snap_is_identity 500 130 200 90 80).
  intros H. vm_compute in H. discriminate.
Defined.

(** X4.  In binary64, for every cell width [calculateCellWidth] derives
    from a container 304 to 8192 pixels wide and every rectangle within
    bounds in the first thousand rows, snapping the pixel box computed by
    [calculateBoxPosition] gives the rectangle back. *)
Theorem snapToGrid_calculateBoxPosition (W : Z) (r : GridRect) :
  304 <= W <= 8192 ->
  isWithinBounds (col r) (row r) (colSpan r) (rowSpan r) = true ->
  row r <= 1000 -> rowSpan r <= 1000 ->
  Binary64Utils.snapBack r (Binary64Utils.calculateCellWidth (Binary64.ofZ W)) = Some r.
Proof.
  rewrite isWithinBounds_spec. unfold GRID_COLUMNS.
  intros HW (Hc & Hr & Hfit & Hcs & Hrs) Hrow Hrowspan.
  destruct r as [c rw cs rs]. cbn [col row colSpan rowSpan] in *.
  pose proof (columns_ok_measured W HW) as Hcols.
  pose proof rows80_ok_thousand as Hrows.
  apply andb_true_iff in Hcols as [Hcol Hspan].
  apply andb_true_iff in Hrows as [Hrw Hrsp].
  apply forallb_seqZ with (z := c) in Hcol; [|unfold Binary64.GRID_COLUMNS; lia].
  apply forallb_seqZ with (z := cs) in Hspan; [|unfold Binary64.GRID_COLUMNS; lia].
  apply forallb_seqZ with (z := rw) in Hrw; [|lia].
  apply forallb_seqZ with (z := rs) in Hrsp; [|lia].
  apply rounds_to_Some in Hcol, Hspan, Hrw, Hrsp.
  set (cw := Binary64Utils.calculateCellWidth (Binary64.ofZ W)).
  assert (Hcol' :
    Binary64.Math_round
      (PrimFloat.div
         (Binary64.left (Binary64Utils.calculateBoxPosition c rw cs rs cw))
         (PrimFloat.add cw Binary64Utils.GRID_GAP)) = Some (c - 1)) by exact Hcol.
  assert (Hspan' :
    Binary64.Math_round
      (PrimFloat.div
         (Binary64.width (Binary64Utils.calculateBoxPosition c rw cs rs cw))
         (PrimFloat.add cw Binary64Utils.GRID_GAP)) = Some cs) by exact Hspan.
  assert (Hrw' :
    Binary64.Math_round
      (PrimFloat.div
         (Binary64.top (Binary64Utils.calculateBoxPosition c rw cs rs cw))
         (PrimFloat.add Binary64Utils.ROW_HEIGHT Binary64Utils.GRID_GAP))
    = Some (rw - 1)) by exact Hrw.
  assert (Hrsp' :
    Binary64.Math_round
      (PrimFloat.div
         (Binary64.height (Binary64Utils.calculateBoxPosition c rw cs rs cw))
         (PrimFloat.add Binary64Utils.ROW_HEIGHT Binary64Utils.GRID_GAP))
    = Some rs) by exact Hrsp.
  unfold Binary64Utils.snapBack, Binary64Utils.snapToGrid.
  cbn [col row colSpan rowSpan].
  rewrite Hcol', Hspan', Hrw', Hrsp'.
  unfold Math_max, Math_min, Binary64Utils.GRID_COLUMNS. f_equal. f_equal; lia.
Qed.

Lemma snapToGrid_calculateBoxPosition_witness :
  Binary64Utils.snapBack (mkGridRect 9 3 2 4)
    (Binary64Utils.calculateCellWidth (Binary64.ofZ 896))
  = Some (mkGridRect 9 3 2 4).
Proof.
  apply (snapToGrid_calculateBoxPosition 896 (mkGridRect 9 3 2 4)).
  - lia.
  - reflexivity.
  - cbn; lia.
  - cbn; lia.
Defined.

End UtilsGrid.

(** ** lib/gridUtils.ts: the fixed 80 pixel grid *)

Section FixedGrid.
Import JS GridUtils.

Lemma isValidGridPosition_spec (p : GridPosition) :
  isValidGridPosition p = true <->
  1 <= colStart p <= GRID_COLUMNS /\ colStart p < colEnd p <= GRID_COLUMNS + 1 /\
  1 <= rowStart p < rowEnd p.
Proof.
  unfold isValidGridPosition.
  rewrite !andb_true_iff, !Z.geb_le, !Z.leb_le, !Z.gtb_gt. lia.
Qed.

Lemma Math_round_cells (k : Z) :
  Math_round (inject_Z k * CELL_SIZE / CELL_SIZE) = k.
Proof.
  apply Math_round_unique.
  - apply Qle_shift_div_l; [reflexivity|]. unfold CELL_SIZE. lra.
  - apply Qlt_shift_div_r; [reflexivity|]. unfold CELL_SIZE. lra.
Qed.

Lemma Math_round_mono (a b : Q) : (a <= b)%Q -> Math_round a <= Math_round b.
Proof. intros Hab. unfold Math_round. apply Qfloor_resp_le. lra. Qed.

(** X6.  On the fixed grid a valid position survives the trip through
    pixels: [pixelToGrid] of [gridToPixel p] is [p] whenever
    [isValidGridPosition p]. *)
Theorem fixed_grid_round_trip (p : GridPosition) :
  isValidGridPosition p = true ->
  let b := gridToPixel p in
  pixelToGrid (x b) (y b) (width b) (height b) = p.
Proof.
  rewrite isValidGridPosition_spec. unfold GRID_COLUMNS. intros (Hc & Hce & Hr).
  destruct p as [cs ce rs re]. cbn [colStart colEnd rowStart rowEnd] in *.
  cbv zeta. unfold gridToPixel, pixelToGrid.
  cbn [x y width height colStart colEnd rowStart rowEnd].
  assert (Hpred : forall k : Z,
            Math_round ((inject_Z k - 1) * CELL_SIZE / CELL_SIZE) = k - 1).
  { intros k. apply Math_round_origin. reflexivity. }
  rewrite !Hpred, !Math_round_cells.
  unfold Math_max, Math_min, GRID_COLUMNS. f_equal; lia.
Qed.

Lemma fixed_grid_round_trip_witness :
  let b := gridToPixel (mkGridPosition 9 11 3 7) in
  pixelToGrid (x b) (y b) (width b) (height b) = mkGridPosition 9 11 3 7.
Proof.
  apply (fixed_grid_round_trip (mkGridPosition 9 11 3 7)). reflexivity.
Defined.

(** X7.  [pixelToGrid] of the fixed grid returns a position that
    [isValidGridPosition] accepts exactly when the snapped start column
    is on the grid; rows and the right edge are always in order. *)
Theorem fixed_grid_snap_valid_iff (px py w h : Q) :
  let p := pixelToGrid px py w h in
  (isValidGridPosition p = true <-> Math_round (px / CELL_SIZE) + 1 <= GRID_COLUMNS) /\
  1 <= colStart p /\ colEnd p <= GRID_COLUMNS + 1 /\ 1 <= rowStart p < rowEnd p.
Proof.
  cbv zeta. rewrite isValidGridPosition_spec. unfold pixelToGrid.
  cbn [colStart colEnd rowStart rowEnd]. unfold Math_max, Math_min, GRID_COLUMNS.
  set (c := Math_round (px / CELL_SIZE) + 1).
  set (s := Math_round (w / CELL_SIZE)).
  set (r := Math_round (py / CELL_SIZE) + 1).
  set (t := Math_round (h / CELL_SIZE)).
  lia.
Qed.

Lemma Math_maxQ_right (a b : Q) : (a <= b)%Q -> Math_maxQ a b = b.
Proof.
  intros Hab. unfold Math_maxQ. apply Qle_bool_iff in Hab. now rewrite Hab.
Qed.

Lemma Math_maxQ_left (a b : Q) : (b < a)%Q -> Math_maxQ a b = a.
Proof.
  intros Hba. unfold Math_maxQ. destruct (Qle_bool a b) eqn:E; [|reflexivity].
  apply Qle_bool_iff in E. lra.
Qed.

Lemma Math_minQ_left (a b : Q) : (a <= b)%Q -> Math_minQ a b = a.
Proof.
  intros Hab. unfold Math_minQ. apply Qle_bool_iff in Hab. now rewrite Hab.
Qed.

Lemma Math_minQ_right (a b : Q) : (b < a)%Q -> Math_minQ a b = b.
Proof.
  intros Hba. unfold Math_minQ. destruct (Qle_bool a b) eqn:E; [|reflexivity].
  apply Qle_bool_iff in E. lra.
Qed.

(** The clamp of [constrainToGrid] on one axis, limited to [cap] cells. *)
Lemma constrained_axis (cap r : Z) :
  1 <= cap ->
  (Math_maxQ CELL_SIZE (Math_minQ (inject_Z cap * CELL_SIZE) (inject_Z r * CELL_SIZE))
   == inject_Z (Z.max 1 (Z.min cap r)) * CELL_SIZE)%Q.
Proof.
  intros Hcap. unfold CELL_SIZE.
  assert (Hcap' : (1 <= inject_Z cap)%Q) by (now rewrite Zle_Qle in Hcap).
  destruct (Z_le_gt_dec cap r) as [Hle|Hgt].
  - assert (Hq : (inject_Z cap <= inject_Z r)%Q) by (now rewrite <- Zle_Qle).
    rewrite Math_minQ_left by lra. rewrite Math_maxQ_right by lra.
    now replace (Z.max 1 (Z.min cap r)) with cap by lia.
  - assert (Hq : (inject_Z r < inject_Z cap)%Q) by (rewrite <- Zlt_Qlt; lia).
    rewrite Math_minQ_right by lra.
    destruct (Z_le_gt_dec 1 r) as [Hr|Hr].
    + assert (Hq1 : (1 <= inject_Z r)%Q) by (now rewrite Zle_Qle in Hr).
      rewrite Math_maxQ_right by lra.
      now replace (Z.max 1 (Z.min cap r)) with r by lia.
    + assert (Hq1 : (inject_Z r < 1)%Q) by (change 1%Q with (inject_Z 1); rewrite <- Zlt_Qlt; lia).
      rewrite Math_maxQ_left by lra.
      replace (Z.max 1 (Z.min cap r)) with 1 by lia. change (inject_Z 1) with 1%Q. lra.
Qed.

Lemma constrainToGrid_cells (w h : Q) :
  let s := constrainToGrid w h in
  let n := Z.max 1 (Z.min GRID_COLUMNS (Math_round (w / CELL_SIZE))) in
  let m := Z.max 1 (Z.min 5 (Math_round (h / CELL_SIZE))) in
  (size_width s == inject_Z n * CELL_SIZE)%Q /\
  (size_height s == inject_Z m * CELL_SIZE)%Q /\
  1 <= n <= GRID_COLUMNS /\ 1 <= m <= 5.
Proof.
  cbv zeta. unfold constrainToGrid. cbn [size_width size_height].
  unfold GRID_COLUMNS. repeat split; try lia.
  - apply (constrained_axis 10). lia.
  - change 5%Q with (inject_Z 5). apply (constrained_axis 5). lia.
Qed.

(** X8.  [constrainToGrid] returns whole cells: the width is [n] cells
    with [n] the rounded cell count of the input clamped into [1, 10], the
    height [m] cells with [m] clamped into [1, 5]. *)
Theorem constrainToGrid_whole_cells (w h : Q) :
  let s := constrainToGrid w h in
  let n := Z.max 1 (Z.min GRID_COLUMNS (Math_round (w / CELL_SIZE))) in
  let m := Z.max 1 (Z.min 5 (Math_round (h / CELL_SIZE))) in
  (size_width s == inject_Z n * CELL_SIZE)%Q /\
  (size_height s == inject_Z m * CELL_SIZE)%Q /\
  1 <= n <= GRID_COLUMNS /\ 1 <= m <= 5.
Proof. exact (constrainToGrid_cells w h). Qed.

(** X9.  Constraining a size that is already constrained changes nothing
    (up to equality of rationals). *)
Theorem constrainToGrid_idempotent (w h : Q) :
  let s := constrainToGrid w h in
  let s' := constrainToGrid (size_width s) (size_height s) in
  (size_width s' == size_width s)%Q /\ (size_height s' == size_height s)%Q.
Proof.
  cbv zeta.
  destruct (constrainToGrid_cells w h) as (Hw & Hh & Hn & Hm).
  destruct (constrainToGrid_cells (size_width (constrainToGrid w h))
              (size_height (constrainToGrid w h))) as (Hw' & Hh' & _ & _).
  cbv zeta in *.
  set (n := Z.max 1 (Z.min GRID_COLUMNS (Math_round (w / CELL_SIZE)))) in *.
  set (m := Z.max 1 (Z.min 5 (Math_round (h / CELL_SIZE)))) in *.
  assert (Hrn : Math_round (size_width (constrainToGrid w h) / CELL_SIZE) = n).
  { unfold Math_round. rewrite Hw. apply Math_round_cells. }
  assert (Hrm : Math_round (size_height (constrainToGrid w h) / CELL_SIZE) = m).
  { unfold Math_round. rewrite Hh. apply Math_round_cells. }
  rewrite Hrn in Hw'. rewrite Hrm in Hh'.
  rewrite Hw', Hh', Hw, Hh.
  replace (Z.max 1 (Z.min GRID_COLUMNS n)) with n by lia.
  replace (Z.max 1 (Z.min 5 m)) with m by lia.
  split; reflexivity.
Qed.

End FixedGrid.

(** ** GridSystem.tsx and GridBox.tsx: collisions, gestures, rendering *)

Section GridSystemMore.
Import JS GridUtils GridSystem GridBoxHandlers.

(** X10.  The overlap test does not depend on the order of its arguments,
    and every valid position overlaps itself, which is why
    [checkCollision] has to skip the acting box. *)
Theorem doGridPositionsOverlap_symmetric :
  (forall a b : GridPosition,
     doGridPositionsOverlap a b = doGridPositionsOverlap b a) /\
  (forall a : GridPosition,
     isValidGridPosition a = true -> doGridPositionsOverlap a a = true).
Proof.
  split.
  - intros a b. unfold doGridPositionsOverlap.
    destruct (Z.ltb_spec (colStart a) (colEnd b)), (Z.gtb_spec (colEnd a) (colStart b)),
      (Z.ltb_spec (rowStart a) (rowEnd b)), (Z.gtb_spec (rowEnd a) (rowStart b)),
      (Z.ltb_spec (colStart b) (colEnd a)), (Z.gtb_spec (colEnd b) (colStart a)),
      (Z.ltb_spec (rowStart b) (rowEnd a)), (Z.gtb_spec (rowEnd b) (rowStart a));
      cbn; try reflexivity; lia.
  - intros a. rewrite isValidGridPosition_spec. intros (Hc & Hce & Hr).
    unfold doGridPositionsOverlap.
    rewrite !andb_true_iff, !Z.ltb_lt, !Z.gtb_gt. lia.
Qed.

Lemma doGridPositionsOverlap_symmetric_witness :
  doGridPositionsOverlap (mkGridPosition 2 4 1 3) (mkGridPosition 2 4 1 3) = true.
Proof.
  apply (proj2 doGridPositionsOverlap_symmetric (mkGridPosition 2 4 1 3)). reflexivity.
Defined.

Section WithLayout.
Variable boxes : list Box.
Variable selectedBoxIds : gset string.

Lemma is_Some_None_false {A : Type} : bool_decide (is_Some (@None A)) = false.
Proof. apply bool_decide_eq_false. intros [? ?]. discriminate. Qed.

Lemma is_Some_Some_true {A : Type} (a : A) : bool_decide (is_Some (Some a)) = true.
Proof. apply bool_decide_eq_true. now exists a. Qed.

Lemma handleBoxUpdate_with_position (id0 : string) (cand : GridPosition)
    (abs : BoxPosition) :
  handleBoxUpdate boxes selectedBoxIds id0 cand (Some abs)
  = Some (mkBoxUpdate id0 cand (Some abs)).
Proof. unfold handleBoxUpdate. now rewrite is_Some_Some_true. Qed.

(** An update is passed on exactly as given when it carries an
    absolute position, however much the grid position overlaps other
    boxes, and when the grid position collides with nothing. *)
Theorem handleBoxUpdate_passes_through (id0 : string) (cand : GridPosition) :
  (forall abs : BoxPosition,
     handleBoxUpdate boxes selectedBoxIds id0 cand (Some abs)
     = Some (mkBoxUpdate id0 cand (Some abs))) /\
  (checkCollision boxes selectedBoxIds id0 cand = false ->
   handleBoxUpdate boxes selectedBoxIds id0 cand None
   = Some (mkBoxUpdate id0 cand None)).
Proof.
  split.
  - apply handleBoxUpdate_with_position.
  - intros Hfree. unfold handleBoxUpdate. rewrite Hfree. now rewrite andb_false_r.
Qed.

(** What the search loop returns when it is given enough iterations. *)
Lemma findPosition_spec (id0 : string) (fuel : nat) :
  forall (p : GridPosition) (a : Z),
    0 <= a -> 100 - a <= Z.of_nat fuel ->
    exists k : nat,
      findPosition boxes selectedBoxIds fuel id0 p a
        = (shiftRows (Z.of_nat k) p, a + Z.of_nat k) /\
      (forall j : nat, (j < k)%nat ->
         checkCollision boxes selectedBoxIds id0 (shiftRows (Z.of_nat j) p) = true) /\
      (a + Z.of_nat k < 100 ->
       checkCollision boxes selectedBoxIds id0 (shiftRows (Z.of_nat k) p) = false) /\
      (0 < Z.of_nat k -> a + Z.of_nat k <= 100).
Proof.
  induction fuel as [|fuel IH]; intros p a Ha Hfuel.
  - exists O. cbn [findPosition Z.of_nat]. rewrite shiftRows_0, Z.add_0_r.
    repeat split; first [lia | intros; lia].
  - cbn [findPosition].
    destruct (checkCollision boxes selectedBoxIds id0 p) eqn:Hc;
      destruct (Z.ltb_spec a 100); cbn [andb].
    + destruct (IH (shiftDown p) (a + 1)) as (k & Heq & Hbusy & Hfree & Hle); [lia|lia|].
      exists (S k). rewrite Heq, shiftRows_shiftDown.
      replace (Z.of_nat k + 1) with (Z.of_nat (S k)) by lia.
      replace (a + 1 + Z.of_nat k) with (a + Z.of_nat (S k)) by lia.
      split; [reflexivity|]. split; [|split].
      * intros [|j] Hj.
        -- cbn [Z.of_nat]. now rewrite shiftRows_0.
        -- specialize (Hbusy j ltac:(lia)). rewrite shiftRows_shiftDown in Hbusy.
           now replace (Z.of_nat j + 1) with (Z.of_nat (S j)) in Hbusy by lia.
      * intros Hlt. rewrite shiftRows_shiftDown in Hfree.
        replace (Z.of_nat k + 1) with (Z.of_nat (S k)) in Hfree by lia.
        apply Hfree. lia.
      * intros _. destruct k as [|k]; [cbn; lia|]. lia.
    + exists O. cbn [Z.of_nat]. rewrite shiftRows_0, Z.add_0_r.
      repeat split; first [lia | intros; lia].
    + exists O. cbn [Z.of_nat]. rewrite shiftRows_0, Z.add_0_r.
      repeat split; first [lia | intros; assumption | intros; lia].
    + exists O. cbn [Z.of_nat]. rewrite shiftRows_0, Z.add_0_r.
      repeat split; first [lia | intros; assumption | intros; lia].
Qed.

(** X11.  Whatever [handleBoxUpdate] passes on without an absolute
    position is either the candidate moved down by some [k < 100] rows to
    a place that collides with no other unselected box, or the position
    stored for a box with the acting id, and the latter only after the
    candidate and its first 99 shifts all collided. *)
Theorem handleBoxUpdate_outcomes (id0 : string) (cand : GridPosition) (u : BoxUpdate) :
  handleBoxUpdate boxes selectedBoxIds id0 cand None = Some u ->
  upd_id u = id0 /\ upd_absolutePosition u = None /\
  ((exists k : Z,
      0 <= k < 100 /\ upd_gridPosition u = shiftRows k cand /\
      checkCollision boxes selectedBoxIds id0 (upd_gridPosition u) = false) \/
   (exists b : Box,
      b ∈ boxes /\ id b = id0 /\ upd_gridPosition u = gridPosition b /\
      forall j : Z, 0 <= j < 100 ->
        checkCollision boxes selectedBoxIds id0 (shiftRows j cand) = true)).
Proof.
  unfold handleBoxUpdate. rewrite is_Some_None_false. cbn [negb andb].
  destruct (checkCollision boxes selectedBoxIds id0 cand) eqn:Hc.
  - destruct (findPosition_spec id0 100 cand 0) as (k & Heq & Hbusy & Hfree & Hle);
      [lia|lia|].
    rewrite Heq. rewrite Z.add_0_l in *.
    destruct (Z.ltb_spec (Z.of_nat k) 100).
    + intros [= <-]. cbn. split; [reflexivity|]. split; [reflexivity|].
      left. exists (Z.of_nat k). split; [lia|]. split; [reflexivity|]. now apply Hfree.
    + destruct (find _ boxes) as [currentBox|] eqn:Hfind; [|discriminate].
      intros [= <-]. cbn. split; [reflexivity|]. split; [reflexivity|].
      right. exists currentBox. apply find_some in Hfind as [Hin Hid].
      apply String.eqb_eq in Hid.
      split; [now apply list_elem_of_In|]. split; [exact Hid|]. split; [reflexivity|].
      intros j Hj. replace j with (Z.of_nat (Z.to_nat j)) by lia. apply Hbusy. lia.
  - intros [= <-]. cbn. split; [reflexivity|]. split; [reflexivity|].
    left. exists 0. rewrite shiftRows_0. split; [lia|]. now split.
Qed.

End WithLayout.

Lemma handleBoxUpdate_passes_through_witness :
  handleBoxUpdate (stack 2) ∅ "x" (mkGridPosition 4 6 1 2) None
  = Some (mkBoxUpdate "x" (mkGridPosition 4 6 1 2) None).
Proof.
  apply (proj2 (handleBoxUpdate_passes_through (stack 2) ∅ "x" (mkGridPosition 4 6 1 2))).
  reflexivity.
Defined.

Lemma handleBoxUpdate_outcomes_witness :
  let u := mkBoxUpdate "x" (mkGridPosition 1 3 6 7) None in
  upd_id u = "x" /\ upd_absolutePosition u = None /\
  ((exists k : Z,
      0 <= k < 100 /\ upd_gridPosition u = shiftRows k (mkGridPosition 1 3 1 2) /\
      checkCollision (stack 1 ++ [actor]) {["x"]} "x" (upd_gridPosition u) = false) \/
   (exists b : Box,
      b ∈ stack 1 ++ [actor] /\ id b = "x" /\ upd_gridPosition u = gridPosition b /\
      forall j : Z, 0 <= j < 100 ->
        checkCollision (stack 1 ++ [actor]) {["x"]} "x"
          (shiftRows j (mkGridPosition 1 3 1 2)) = true)).
Proof.
  assert (Hrun : handleBoxUpdate (stack 1 ++ [actor]) {["x"]} "x"
                   (mkGridPosition 1 3 1 2) None
                 = Some (mkBoxUpdate "x" (mkGridPosition 1 3 6 7) None))
    by (vm_compute; reflexivity).
  exact (handleBoxUpdate_outcomes _ _ _ _ _ Hrun).
Defined.

End GridSystemMore.

Section GridSystemView.
Import JS GridUtils GridSystem GridBoxHandlers.

(** [Math.max(...xs, last)] is an upper bound of all its arguments. *)
Lemma Math_max_with_upper (xs : list Z) (last : Z) :
  last <= Math_max_with xs last /\ forall z, z ∈ xs -> z <= Math_max_with xs last.
Proof.
  unfold Math_max_with. destruct xs as [|x xs]; cbn.
  - split; [lia|]. intros z Hz. now apply elem_of_nil in Hz.
  - split.
    + apply Math_max_list_upper. apply elem_of_app. right. apply list_elem_of_here.
    + intros z Hz. apply elem_of_cons in Hz as [->|Hz].
      * apply Math_max_list_init.
      * apply Math_max_list_upper. apply elem_of_app. now left.
Qed.

(** X12.  The grid is sized to at least 12 rows and always keeps two
    spare rows below the lowest box. *)
Theorem maxRows_leaves_room (boxes : list Box) :
  12 <= maxRows boxes /\
  forall box, box ∈ boxes -> rowEnd (gridPosition box) + 2 <= maxRows boxes.
Proof.
  unfold maxRows, Math_max.
  destruct (Math_max_with_upper
              (map (fun box => rowEnd (gridPosition box)) boxes) 10) as [Hten Hall].
  split; [lia|].
  intros box Hbox.
  assert (Hle : rowEnd (gridPosition box)
                <= Math_max_with (map (fun box => rowEnd (gridPosition box)) boxes) 10).
  { apply Hall. apply list_elem_of_In.
    apply (in_map (fun box => rowEnd (gridPosition box))). now apply list_elem_of_In. }
  lia.
Qed.

Lemma maxRows_leaves_room_witness :
  rowEnd (gridPosition actor) + 2 <= maxRows (stack 3 ++ [actor]).
Proof.
  apply (proj2 (maxRows_leaves_room (stack 3 ++ [actor])) actor).
  apply elem_of_app. right. apply list_elem_of_here.
Defined.

(** X13.  Every box is rendered exactly once: the boxes drawn inside the
    grid and the boxes drawn with absolute positioning together are a
    rearrangement of the layout, and no box is in both groups. *)
Theorem every_box_rendered_once (boxes : list Box) :
  renderedInGrid boxes ++ renderedAbsolute boxes ≡ₚ boxes /\
  forall box, ~ (box ∈ renderedInGrid boxes /\ box ∈ renderedAbsolute boxes).
Proof.
  split.
  - unfold renderedInGrid, renderedAbsolute.
    induction boxes as [|b bs IH]; [reflexivity|]. cbn [List.filter].
    destruct (isSelected b), (bool_decide (is_Some (absolutePosition b)));
      cbn [negb orb andb app].
    + etransitivity; [symmetry; apply Permutation_middle|]. now constructor.
    + now constructor.
    + now constructor.
    + now constructor.
  - intros box [Hg Ha]. unfold renderedInGrid, renderedAbsolute in *.
    apply list_elem_of_In, filter_In in Hg as [_ Hg].
    apply list_elem_of_In, filter_In in Ha as [_ Ha].
    destruct (isSelected box), (bool_decide (is_Some (absolutePosition box)));
      cbn in *; discriminate.
Qed.

(** X14.  No gesture of a box reaches collision resolution: whatever a
    drag, a resize or an arrow key sends carries the id of the box and an
    absolute position, and [handleBoxUpdate] hands it on unchanged. *)
Theorem gestures_bypass_collision_check (boxes : list Box) (selectedBoxIds : gset string)
    (box : Box) (g : Gesture) (u : BoxUpdate) :
  onGesture box g = Some u ->
  upd_id u = id box /\ is_Some (upd_absolutePosition u) /\
  handleBoxUpdate boxes selectedBoxIds
    (upd_id u) (upd_gridPosition u) (upd_absolutePosition u) = Some u.
Proof.
  intros Hg.
  assert (Hshape : upd_id u = id box /\ is_Some (upd_absolutePosition u)).
  { destruct g; cbn in Hg;
      unfold handleDragStart, handleDrag, handleDragStop, handleResize,
        handleResizeStop, handleArrowKey in Hg;
      destruct (isSelected box); cbn in Hg; try discriminate;
      destruct (absolutePosition box); try discriminate.
    6: destruct key.
    all: injection Hg as <-; cbn; split; [reflexivity|eexists; reflexivity]. }
  destruct Hshape as [Hid [abs Habs]]. split; [exact Hid|]. split; [now exists abs|].
  destruct u as [uid ugp uabs]. cbn in *. subst uabs.
  apply handleBoxUpdate_with_position.
Qed.

Lemma gestures_bypass_collision_check_witness :
  exists u : BoxUpdate,
    onGesture actor (DragStop 120 200) = Some u /\
    handleBoxUpdate (stack 21 ++ [actor]) {["x"]}
      (upd_id u) (upd_gridPosition u) (upd_absolutePosition u) = Some u.
Proof.
  eexists. split; [reflexivity|].
  apply (gestures_bypass_collision_check (stack 21 ++ [actor]) {["x"]}
           actor (DragStop 120 200)).
  reflexivity.
Defined.

(** X15.  A box that is not selected answers no gesture, and a selected
    box without an absolute position answers only the start of a drag,
    which attaches the pixel box of its grid position. *)
Theorem gestures_need_free_mode (box : Box) (g : Gesture) :
  (isSelected box = false -> onGesture box g = None) /\
  (isSelected box = true -> absolutePosition box = None ->
   onGesture box g =
     match g with
     | DragStart =>
         Some (mkBoxUpdate (id box) (gridPosition box)
                 (Some (gridToPixel (gridPosition box))))
     | _ => None
     end).
Proof.
  split.
  - intros Hsel. destruct g; cbn;
      unfold handleDragStart, handleDrag, handleDragStop, handleResize,
        handleResizeStop, handleArrowKey; now rewrite Hsel.
  - intros Hsel Habs. destruct g; cbn;
      unfold handleDragStart, handleDrag, handleDragStop, handleResize,
        handleResizeStop, handleArrowKey; now rewrite Hsel, Habs.
Qed.

Lemma gestures_need_free_mode_witness :
  onGesture (mkBox "b" (mkGridPosition 1 3 1 2) None false) (Drag 10 10) = None.
Proof.
  apply (proj1 (gestures_need_free_mode
                  (mkBox "b" (mkGridPosition 1 3 1 2) None false) (Drag 10 10))).
  reflexivity.
Defined.

End GridSystemView.

Section FreeMode.
Import JS GridUtils GridSystem GridBoxHandlers.

(** X16.  A resize that ends sends a size of whole cells, between 1 and 5
    cells high and 1 and 10 cells wide, and a grid position that spans
    between 1 and 5 rows and at most 10 columns. *)
Theorem handleResizeStop_limits (box : Box) (newWidth newHeight : Z) (px py : Q)
    (u : BoxUpdate) :
  handleResizeStop box newWidth newHeight px py = Some u ->
  (exists abs : BoxPosition,
     upd_absolutePosition u = Some abs /\
     (CELL_SIZE <= width abs <= inject_Z GRID_COLUMNS * CELL_SIZE)%Q /\
     (CELL_SIZE <= height abs <= 5 * CELL_SIZE)%Q) /\
  1 <= rowEnd (upd_gridPosition u) - rowStart (upd_gridPosition u) <= 5 /\
  colEnd (upd_gridPosition u) - colStart (upd_gridPosition u) <= GRID_COLUMNS.
Proof.
  unfold handleResizeStop.
  pose proof (constrainToGrid_bounds (inject_Z newWidth) (inject_Z newHeight)) as Hb.
  destruct (constrainToGrid_cells (inject_Z newWidth) (inject_Z newHeight))
    as (Hw & Hh & Hn & Hm).
  cbv zeta in Hb, Hw, Hh, Hn, Hm |- *.
  set (s := constrainToGrid (inject_Z newWidth) (inject_Z newHeight)) in *.
  set (n := Z.max 1 (Z.min GRID_COLUMNS (Math_round (inject_Z newWidth / CELL_SIZE)))) in *.
  set (m := Z.max 1 (Z.min 5 (Math_round (inject_Z newHeight / CELL_SIZE)))) in *.
  clearbody s n m.
  destruct (isSelected box); [|discriminate].
  destruct (absolutePosition box) as [abs0|]; [|discriminate].
  intros [= <-]. cbn [upd_absolutePosition upd_gridPosition].
  split.
  - eexists. split; [reflexivity|]. cbn [width height]. tauto.
  - unfold pixelToGrid. cbn [colStart colEnd rowStart rowEnd].
    assert (Hrn : Math_round (size_width s / CELL_SIZE) = n).
    { unfold Math_round. rewrite Hw. apply Math_round_cells. }
    assert (Hrm : Math_round (size_height s / CELL_SIZE) = m).
    { unfold Math_round. rewrite Hh. apply Math_round_cells. }
    rewrite Hrn, Hrm. unfold Math_max, Math_min, GRID_COLUMNS in *. lia.
Qed.

Lemma handleResizeStop_limits_witness :
  exists u : BoxUpdate,
    handleResizeStop actor 1000 1000 24 24 = Some u /\
    1 <= rowEnd (upd_gridPosition u) - rowStart (upd_gridPosition u) <= 5.
Proof.
  eexists. split; [reflexivity|].
  apply (handleResizeStop_limits actor 1000 1000 24 24). reflexivity.
Defined.

(** X17.  An arrow key moves a free box by one step, 80 pixels with Shift
    and 40 without, along one axis; it keeps the size, the other
    coordinate and the grid position, and ArrowUp and ArrowLeft stop at
    coordinate 0. *)
Theorem handleArrowKey_moves (box : Box) (abs : BoxPosition) (key : ArrowKey)
    (shiftKey : bool) :
  isSelected box = true -> absolutePosition box = Some abs ->
  let step := if shiftKey then 80%Q else 40%Q in
  exists abs' : BoxPosition,
    handleArrowKey box key shiftKey
      = Some (mkBoxUpdate (id box) (gridPosition box) (Some abs')) /\
    width abs' = width abs /\ height abs' = height abs /\
    match key with
    | ArrowUp =>
        x abs' = x abs /\ (0 <= y abs')%Q /\
        ((step <= y abs)%Q -> (y abs' == y abs - step)%Q)
    | ArrowDown => x abs' = x abs /\ (y abs' == y abs + step)%Q
    | ArrowLeft =>
        y abs' = y abs /\ (0 <= x abs')%Q /\
        ((step <= x abs)%Q -> (x abs' == x abs - step)%Q)
    | ArrowRight => y abs' = y abs /\ (x abs' == x abs + step)%Q
    end.
Proof.
  intros Hsel Habs. cbv zeta. unfold handleArrowKey. rewrite Hsel, Habs. cbn [negb].
  assert (Hstep : ((if shiftKey then CELL_SIZE else CELL_SIZE / 2)
                   == (if shiftKey then 80 else 40))%Q).
  { destruct shiftKey; unfold CELL_SIZE; [reflexivity|]. field. }
  destruct key; eexists; (split; [reflexivity|]); cbn [x y width height];
    (split; [reflexivity|]); (split; [reflexivity|]).
  - split; [reflexivity|]. split; [apply Math_maxQ_lower|].
    intros Hle. rewrite Math_maxQ_right by (rewrite Hstep; lra). now rewrite Hstep.
  - split; [reflexivity|]. now rewrite Hstep.
  - split; [reflexivity|]. split; [apply Math_maxQ_lower|].
    intros Hle. rewrite Math_maxQ_right by (rewrite Hstep; lra). now rewrite Hstep.
  - split; [reflexivity|]. now rewrite Hstep.
Qed.

Lemma handleArrowKey_moves_witness :
  exists abs' : BoxPosition,
    handleArrowKey actor ArrowUp true
      = Some (mkBoxUpdate "x" (mkGridPosition 1 3 1 2) (Some abs')) /\
    (0 <= y abs')%Q.
Proof.
  destruct (handleArrowKey_moves actor (GridUtils.mkBoxPosition 0 0 160 80)
              ArrowUp true eq_refl eq_refl)
    as (abs' & Hrun & _ & _ & _ & Hy & _).
  exists abs'. split; [exact Hrun|exact Hy].
Defined.

(** A drag never changes the size of the box, places it at the
    pointer minus the 24 pixel padding, and, when it stops, sends as grid
    position the snap of the absolute position it sends. *)
Theorem drags_keep_size (box : Box) (abs : BoxPosition) (dx dy : Q) :
  isSelected box = true -> absolutePosition box = Some abs ->
  let moved := mkBoxPosition (dx - 24 - 0)%Q (dy - 24 - 0)%Q (width abs) (height abs) in
  handleDrag box dx dy
    = Some (mkBoxUpdate (id box) (gridPosition box) (Some moved)) /\
  handleDragStop box dx dy
    = Some (mkBoxUpdate (id box)
              (pixelToGrid (x moved) (y moved) (width moved) (height moved))
              (Some moved)).
Proof.
  intros Hsel Habs. cbv zeta. unfold handleDrag, handleDragStop.
  rewrite Hsel, Habs. split; reflexivity.
Qed.

Lemma drags_keep_size_witness :
  handleDrag actor 124 104
  = Some (mkBoxUpdate "x" (mkGridPosition 1 3 1 2)
            (Some (mkBoxPosition (124 - 24 - 0)%Q (104 - 24 - 0)%Q 160 80))).
Proof.
  apply (proj1 (drags_keep_size actor (GridUtils.mkBoxPosition 0 0 160 80) 124 104
                  eq_refl eq_refl)).
Defined.

End FreeMode.

(** ** The page: selection, ids and layout validity *)

Set Warnings "-clear-no-such-hyp".

Section PageMore.
Import JS GridSnapping Page.

Lemma toggle_twice (id0 : string) (sel : gset string) :
  (if bool_decide
        (id0 ∈ (if bool_decide (id0 ∈ sel) then sel ∖ {[id0]} else sel ∪ {[id0]}))
   then (if bool_decide (id0 ∈ sel) then sel ∖ {[id0]} else sel ∪ {[id0]}) ∖ {[id0]}
   else (if bool_decide (id0 ∈ sel) then sel ∖ {[id0]} else sel ∪ {[id0]}) ∪ {[id0]})
  = sel.
Proof.
  destruct (decide (id0 ∈ sel)) as [Hin|Hout].
  - rewrite (bool_decide_eq_true_2 _ Hin).
    rewrite bool_decide_eq_false_2 by set_solver.
    apply set_eq. intros other. destruct (decide (other = id0)); set_solver.
  - rewrite (bool_decide_eq_false_2 _ Hout).
    rewrite bool_decide_eq_true_2 by set_solver.
    set_solver.
Qed.

(** X18.  Selecting with Shift toggles the membership of the clicked id
    and of no other id, so doing it twice restores the Selection; a plain
    click after a plain click on the same box changes nothing.  The
    Layout is never touched. *)
Theorem handleSelect_toggles {B : Type} (id0 : string) (st : State B) :
  (id0 ∈ selectedIds (handleSelect id0 true st) <-> id0 ∉ selectedIds st) /\
  (forall other : string,
     other <> id0 ->
     (other ∈ selectedIds (handleSelect id0 true st) <-> other ∈ selectedIds st)) /\
  selectedIds (handleSelect id0 true (handleSelect id0 true st)) = selectedIds st /\
  handleSelect id0 false (handleSelect id0 false st) = handleSelect id0 false st /\
  (forall multi : bool, boxes (handleSelect id0 multi st) = boxes st).
Proof.
  split; [|split; [|split; [|split]]].
  - unfold handleSelect. cbn [selectedIds]. case_bool_decide; set_solver.
  - intros other Hne. unfold handleSelect. cbn [selectedIds].
    case_bool_decide; set_solver.
  - unfold handleSelect. cbn [selectedIds]. apply toggle_twice.
  - reflexivity.
  - intros multi. reflexivity.
Qed.

Lemma handleSelect_toggles_witness :
  "1" ∈ selectedIds (handleSelect "2" true demoState) <-> "1" ∈ selectedIds demoState.
Proof.
  apply (proj1 (proj2 (handleSelect_toggles "2" demoState)) "1"). discriminate.
Defined.

Lemma ids_of_added (st : State Box) :
  map id (boxes (handleAddBox st)) = map id (boxes st) ++ [pretty (nextId st)].
Proof. unfold handleAddBox. cbn [boxes]. now rewrite map_app. Qed.

(** X19.  [handleAddBox] keeps ids unique: if the ids in the Layout are
    distinct numerals below the counter, they still are after the add;
    the demo layout and the Layout after clear-all satisfy this. *)
Theorem handleAddBox_keeps_ids_fresh :
  (forall st : State Box, ids_fresh st -> ids_fresh (handleAddBox st)) /\
  ids_fresh initialState /\
  (forall st : State Box, ids_fresh (handleClearAll true st)).
Proof.
  split; [|split].
  - intros st [Hnodup Hnum]. split.
    + rewrite ids_of_added. apply NoDup_app. split; [exact Hnodup|]. split.
      * intros i Hi Hnew. apply list_elem_of_In, in_map_iff in Hi as (b & <- & Hb).
        apply list_elem_of_In in Hb. destruct (Hnum b Hb) as (k & Hk & Hlt).
        apply list_elem_of_singleton in Hnew. rewrite Hk in Hnew.
        apply (inj pretty) in Hnew. lia.
      * apply NoDup_singleton.
    + intros b Hb. unfold handleAddBox in Hb |- *. cbn [boxes nextId] in *.
      apply elem_of_app in Hb as [Hb|Hb].
      * destruct (Hnum b Hb) as (k & Hk & Hlt). exists k. split; [exact Hk|lia].
      * apply list_elem_of_singleton in Hb. subst b. cbn [id].
        exists (nextId st). split; [reflexivity|lia].
  - split.
    + cbn. repeat (constructor; [set_solver|]). constructor.
    + intros b Hb. cbn in Hb. unfold initialBoxes in Hb.
      repeat (apply elem_of_cons in Hb as [->|Hb]);
        [exists 1|exists 2|exists 3|exists 4|now apply elem_of_nil in Hb];
        (split; [reflexivity|cbn; lia]).
  - intros st. split; cbn.
    + constructor.
    + intros b Hb. now apply elem_of_nil in Hb.
Qed.

Lemma handleAddBox_keeps_ids_fresh_witness :
  ids_fresh (handleAddBox (handleAddBox initialState)).
Proof.
  apply (proj1 handleAddBox_keeps_ids_fresh).
  apply (proj1 handleAddBox_keeps_ids_fresh).
  apply (proj1 (proj2 handleAddBox_keeps_ids_fresh)).
Defined.

(** X20.  [handleAddBox] keeps the Layout valid: if every box satisfies
    the Box invariants, so does every box after the add, the new one
    included. *)
Theorem handleAddBox_keeps_layout_valid (st : State Box) :
  Forall (fun b => valid_rect (rect b)) (boxes st) ->
  Forall (fun b => valid_rect (rect b)) (boxes (handleAddBox st)).
Proof.
  intros Hvalid. unfold handleAddBox. cbn [boxes].
  apply Forall_app. split; [exact Hvalid|].
  constructor; [|constructor].
  unfold valid_rect, GRID_COLUMNS. cbn [rect col row colSpan rowSpan].
  assert (Hmax : 0 <= maxRow (boxes st)).
  { destruct (boxes st) as [|b0 l] eqn:E; [cbn; lia|].
    destruct (maxRow_attained (b0 :: l)) as (b & Hb & ->); [discriminate|].
    rewrite Forall_forall in Hvalid. specialize (Hvalid b Hb).
    unfold valid_rect, lastRow in *. lia. }
  lia.
Qed.

Lemma handleAddBox_keeps_layout_valid_witness :
  Forall (fun b => valid_rect (rect b)) (boxes (handleAddBox initialState)).
Proof.
  apply (handleAddBox_keeps_layout_valid initialState).
  cbn. unfold initialBoxes.
  repeat (constructor; [now apply (bool_decide_unpack _)|]). constructor.
Defined.

(** X22.  Drag and resize settle never add, drop, reorder or rename a
    box, and a gesture for an id that is not in the Layout leaves the
    Layout as it is. *)
Theorem settle_keeps_ids (m : GridMath) (id0 : string) (x y w h : Q) (prev : list Box) :
  map id (handleDragStop m id0 x y prev) = map id prev /\
  map id (handleResizeStop m id0 x y w h prev) = map id prev /\
  (id0 ∉ map id prev ->
   handleDragStop m id0 x y prev = prev /\
   handleResizeStop m id0 x y w h prev = prev).
Proof.
  split; [|split].
  - unfold handleDragStop. rewrite map_map. apply map_ext. intros b.
    destruct (negb (String.eqb (id b) id0)); [reflexivity|].
    now destruct (find _ prev).
  - unfold handleResizeStop. rewrite map_map. apply map_ext. intros b.
    now destruct (negb (String.eqb (id b) id0)).
  - intros Hout.
    assert (Hne : forall b, In b prev -> negb (String.eqb (id b) id0) = true).
    { intros b Hb. apply negb_true_iff, String.eqb_neq. intros Heq. apply Hout.
      rewrite <- Heq. apply list_elem_of_In. now apply in_map. }
    unfold handleDragStop, handleResizeStop. split.
    + transitivity (map (fun b : Box => b) prev); [|apply map_id].
      apply map_ext_in. intros b Hb. now rewrite Hne.
    + transitivity (map (fun b : Box => b) prev); [|apply map_id].
      apply map_ext_in. intros b Hb. now rewrite Hne.
Qed.

Lemma settle_keeps_ids_witness :
  handleDragStop math80 "9" 100 100 initialBoxes = initialBoxes /\
  handleResizeStop math80 "9" 100 100 200 200 initialBoxes = initialBoxes.
Proof.
  apply (proj2 (proj2 (settle_keeps_ids math80 "9" 100 100 200 200 initialBoxes))).
  intros Hin. cbn in Hin. set_solver.
Defined.

End PageMore.

(** ** Grid.tsx: the container holds its boxes *)

Section Container.
Import JS GridSnapping GridContainer.

(** X24.  The container is tall enough: its height is that of at least
    ten rows, and no box reaches below it. *)
Theorem gridHeight_covers_boxes (boxes : list Box) (m : GridMath) :
  (0 <= rowHeight m + gap m)%Q ->
  (10 * (rowHeight m + gap m) - gap m <= gridHeight boxes m)%Q /\
  forall b : Box, b ∈ boxes ->
    let p := gridToPixel (rect b) m in
    (top p + height p <= gridHeight boxes m)%Q.
Proof.
  intros Hpitch.
  destruct (Math_max_with_upper
              (map (fun b => row (rect b) + rowSpan (rect b) - 1) boxes) 10)
    as [Hten Hall].
  fold (maxRow boxes) in Hten, Hall.
  unfold gridHeight, gridToPixel. split.
  - assert (H10 : (10 <= inject_Z (maxRow boxes))%Q).
    { change 10%Q with (inject_Z 10). now rewrite <- Zle_Qle. }
    nra.
  - intros b Hb. cbn [top height].
    assert (Hle : row (rect b) + rowSpan (rect b) - 1 <= maxRow boxes).
    { apply Hall. apply list_elem_of_In.
      apply (in_map (fun b => row (rect b) + rowSpan (rect b) - 1)).
      now apply list_elem_of_In. }
    assert (HQ : (inject_Z (row (rect b)) + inject_Z (rowSpan (rect b)) - 1
                  <= inject_Z (maxRow boxes))%Q).
    { rewrite <- inject_Z_plus, <- inject_Z_pred, <- Zle_Qle. lia. }
    set (R := inject_Z (row (rect b))) in *.
    set (S := inject_Z (rowSpan (rect b))) in *.
    set (M := inject_Z (maxRow boxes)) in *.
    nra.
Qed.

Lemma gridHeight_covers_boxes_witness :
  let p := gridToPixel (mkGridRect 1 2 2 2) math80 in
  (top p + height p <= gridHeight Page.initialBoxes math80)%Q.
Proof.
  apply (proj2 (gridHeight_covers_boxes Page.initialBoxes math80
                  ltac:(vm_compute; discriminate))
           (mkBox "4" (mkGridRect 1 2 2 2))).
  unfold Page.initialBoxes. do 3 apply list_elem_of_further. apply list_elem_of_here.
Defined.

End Container.

(** ** The page with undo and redo: invariants of the history *)

Section HistoryMore.
Import JS HistoryPage.

Lemma handleUndo_in_range (st : State) :
  cursor_in_range st ->
  exists st' : State,
    handleUndo st = Some st' /\ cursor_in_range st' /\
    history st' = history st /\
    historyIndex st' = Z.max 0 (historyIndex st - 1).
Proof.
  intros [Hlo Hhi]. unfold handleUndo.
  destruct (Z.gtb_spec (historyIndex st) 0).
  - destruct (index_in_range (history st) (historyIndex st - 1)) as [h Hh]; [lia|].
    rewrite Hh. eexists. split; [reflexivity|].
    unfold cursor_in_range. cbn [history historyIndex]. repeat split; lia.
  - exists st. unfold cursor_in_range. repeat split; lia.
Qed.

Lemma handleRedo_in_range (st : State) :
  cursor_in_range st ->
  exists st' : State,
    handleRedo st = Some st' /\ cursor_in_range st' /\
    history st' = history st /\
    historyIndex st'
    = Z.min (Z.of_nat (length (history st)) - 1) (historyIndex st + 1).
Proof.
  intros [Hlo Hhi]. unfold handleRedo.
  destruct (Z.ltb_spec (historyIndex st) (Z.of_nat (length (history st)) - 1)).
  - destruct (index_in_range (history st) (historyIndex st + 1)) as [h Hh]; [lia|].
    rewrite Hh. eexists. split; [reflexivity|].
    unfold cursor_in_range. cbn [history historyIndex]. repeat split; lia.
  - exists st. unfold cursor_in_range. repeat split; lia.
Qed.

Lemma saveToHistory_in_range (newBoxes : list BoxData) (newSel : gset string)
    (st : State) :
  -1 <= historyIndex st < Z.of_nat (length (history st)) ->
  cursor_in_range (saveToHistory newBoxes newSel st).
Proof.
  intros [Hlo Hhi]. unfold cursor_in_range, saveToHistory.
  cbn [history historyIndex]. rewrite length_app. cbn [length]. lia.
Qed.

(** X25.  The cursor stays on an entry of the history: the first push
    puts it there, every later push, undo and redo keeps it there, and
    under this invariant undo and redo never read a missing entry; they
    leave the history itself untouched and move the cursor by at most one
    within its bounds. *)
Theorem history_cursor_invariant :
  cursor_in_range initialState /\
  (forall (newBoxes : list BoxData) (newSel : gset string) (st : State),
     cursor_in_range st -> cursor_in_range (saveToHistory newBoxes newSel st)) /\
  (forall st : State,
     cursor_in_range st ->
     exists st' : State,
       handleUndo st = Some st' /\ cursor_in_range st' /\
       history st' = history st /\
       historyIndex st' = Z.max 0 (historyIndex st - 1)) /\
  (forall st : State,
     cursor_in_range st ->
     exists st' : State,
       handleRedo st = Some st' /\ cursor_in_range st' /\
       history st' = history st /\
       historyIndex st'
       = Z.min (Z.of_nat (length (history st)) - 1) (historyIndex st + 1)).
Proof.
  split; [|split; [|split]].
  - apply saveToHistory_in_range. cbn. lia.
  - intros newBoxes newSel st [Hlo Hhi]. apply saveToHistory_in_range. lia.
  - apply handleUndo_in_range.
  - apply handleRedo_in_range.
Qed.

Lemma history_cursor_invariant_witness :
  cursor_in_range (saveToHistory [] ∅ initialState).
Proof.
  apply (proj1 (proj2 history_cursor_invariant) [] ∅ initialState).
  apply (proj1 history_cursor_invariant).
Defined.

(** An undo right after a push shows the snapshot that was under the
    cursor before the push. *)
Lemma handleUndo_after_save (newBoxes : list BoxData) (newSel : gset string)
    (st : State) (h : HistoryState.t) :
  cursor_in_range st ->
  index (history st) (historyIndex st) = Some h ->
  exists st' : State,
    handleUndo (saveToHistory newBoxes newSel st) = Some st' /\
    boxes st' = HistoryState.boxes h /\
    selectedBoxIds st' = HistoryState.selectedBoxIds h /\
    historyIndex st' = historyIndex st.
Proof.
  intros Hrange Hh. pose proof Hrange as [Hlo Hhi].
  destruct (saveToHistory_truncates newBoxes newSel st Hrange) as [Hhist Hidx].
  unfold handleUndo. rewrite Hidx, Hhist.
  destruct (Z.gtb_spec (historyIndex st + 1) 0); [|lia].
  replace (historyIndex st + 1 - 1) with (historyIndex st) by lia.
  assert (Hlook : index (take (Z.to_nat (historyIndex st + 1)) (history st)
                         ++ [HistoryState.mk newBoxes newSel]) (historyIndex st)
                  = Some h).
  { unfold index in *. destruct (Z.ltb_spec (historyIndex st) 0); [lia|].
    rewrite lookup_app_l by (rewrite length_take; lia).
    rewrite lookup_take_lt by lia. exact Hh. }
  rewrite Hlook. eexists. split; [reflexivity|]. cbn. repeat split.
Qed.

(** X26.  Undo takes back a committed change: from a state whose live
    Layout and Selection are the snapshot under the cursor, an add, a
    delete or a confirmed clear-all followed by an undo shows that Layout
    and Selection again, with the cursor where it was. *)
Theorem undo_takes_back_commit (st : State) :
  cursor_in_range st -> committed st ->
  (exists st' : State,
     handleUndo (handleAddBox st) = Some st' /\
     boxes st' = boxes st /\ selectedBoxIds st' = selectedBoxIds st /\
     historyIndex st' = historyIndex st) /\
  (forall id0 : string,
     exists st' : State,
       handleUndo (handleBoxDelete id0 st) = Some st' /\
       boxes st' = boxes st /\ selectedBoxIds st' = selectedBoxIds st /\
       historyIndex st' = historyIndex st) /\
  (boxes st <> [] ->
   exists st' : State,
     handleUndo (handleClearAll true st) = Some st' /\
     boxes st' = boxes st /\ selectedBoxIds st' = selectedBoxIds st /\
     historyIndex st' = historyIndex st).
Proof.
  intros Hrange Hcommitted. unfold committed in Hcommitted.
  split; [|split].
  - unfold handleAddBox.
    match goal with |- context [saveToHistory ?b ?s ?s0] =>
      destruct (handleUndo_after_save b s s0 _ Hrange Hcommitted) as (st' & H1 & H2 & H3 & H4)
    end.
    exists st'. repeat split; assumption.
  - intros id0. unfold handleBoxDelete.
    match goal with |- context [saveToHistory ?b ?s ?s0] =>
      destruct (handleUndo_after_save b s s0 _ Hrange Hcommitted) as (st' & H1 & H2 & H3 & H4)
    end.
    exists st'. repeat split; assumption.
  - intros Hne. unfold handleClearAll.
    destruct (boxes st) as [|b0 l] eqn:E; [contradiction|]. cbn [length].
    destruct (Z.eqb_spec (Z.of_nat (S (length l))) 0); [lia|].
    match goal with |- context [saveToHistory ?b ?s ?s0] =>
      destruct (handleUndo_after_save b s s0 _ Hrange Hcommitted) as (st' & H1 & H2 & H3 & H4)
    end.
    exists st'. repeat split; assumption.
Qed.

Lemma undo_takes_back_commit_witness :
  exists st' : State,
    handleUndo (handleAddBox initialState) = Some st' /\
    boxes st' = initialBoxes /\ selectedBoxIds st' = ∅ /\ historyIndex st' = 0.
Proof.
  apply (proj1 (undo_takes_back_commit initialState
                  ltac:(apply saveToHistory_in_range; cbn; lia) eq_refl)).
Defined.

End HistoryMore.

Section HistorySteps.
Import JS HistoryPage.

(** X27.  Deleting a box leaves exactly the boxes with another id, in
    their order and as often as they occurred, takes the id out of the
    Selection and nothing else, and commits one history entry; for an id
    that is not in the Layout the Layout stays as it is, but the entry is
    committed all the same. *)
Theorem handleBoxDelete_effect (id0 : string) (st : State) :
  boxes (handleBoxDelete id0 st) = filter (fun b => id b <> id0) (boxes st) /\
  (forall b : BoxData,
     b ∈ boxes (handleBoxDelete id0 st) <-> (b ∈ boxes st /\ id b <> id0)) /\
  (forall i : string,
     i ∈ selectedBoxIds (handleBoxDelete id0 st) <->
     (i ∈ selectedBoxIds st /\ i <> id0)) /\
  (id0 ∉ selectedBoxIds (handleBoxDelete id0 st)) /\
  (id0 ∉ map id (boxes st) -> boxes (handleBoxDelete id0 st) = boxes st) /\
  (cursor_in_range st ->
   historyIndex (handleBoxDelete id0 st) = historyIndex st + 1 /\
   index (history (handleBoxDelete id0 st)) (historyIndex st + 1)
   = Some (HistoryState.mk (boxes (handleBoxDelete id0 st))
             (selectedBoxIds (handleBoxDelete id0 st)))).
Proof.
  split; [|split; [|split; [|split; [|split]]]].
  - unfold handleBoxDelete, saveToHistory. cbn [boxes].
    induction (boxes st) as [|b l IH]; [reflexivity|].
    rewrite filter_cons. cbn [List.filter]. rewrite IH.
    destruct (String.eqb_spec (id b) id0) as [Heq|Hne]; cbn [negb];
      case_decide; first [reflexivity | contradiction | congruence].
  - intros b. unfold handleBoxDelete, saveToHistory. cbn [boxes].
    rewrite list_elem_of_In, filter_In, negb_true_iff, String.eqb_neq.
    now rewrite <- list_elem_of_In.
  - intros i. unfold handleBoxDelete, saveToHistory. cbn [selectedBoxIds]. set_solver.
  - unfold handleBoxDelete, saveToHistory. cbn [selectedBoxIds]. set_solver.
  - intros Hout. unfold handleBoxDelete, saveToHistory. cbn [boxes].
    induction (boxes st) as [|b l IH]; [reflexivity|]. cbn [List.filter].
    destruct (String.eqb_spec (id b) id0) as [Heq|Hne]; cbn [negb].
    + exfalso. apply Hout. cbn. rewrite Heq. apply list_elem_of_here.
    + f_equal. apply IH. intros Hin. apply Hout. cbn. now apply list_elem_of_further.
  - intros Hrange. pose proof Hrange as [Hlo Hhi]. unfold handleBoxDelete.
    match goal with |- context [saveToHistory ?b ?s ?s0] =>
      destruct (saveToHistory_truncates b s s0 Hrange) as [Hhist Hidx];
      set (saved := saveToHistory b s s0) in *
    end.
    cbn [historyIndex history] in Hidx, Hhist. split; [exact Hidx|].
    rewrite Hhist. unfold index. destruct (Z.ltb_spec (historyIndex st + 1) 0); [lia|].
    rewrite lookup_app_r by (rewrite length_take; lia).
    rewrite length_take.
    replace (Z.to_nat (historyIndex st + 1)
             - Z.to_nat (historyIndex st + 1) `min` length (history st))%nat
      with 0%nat by lia.
    reflexivity.
Qed.

Lemma handleBoxDelete_effect_witness :
  boxes (handleBoxDelete "box-9" initialState) = boxes initialState /\
  boxes (handleBoxDelete "box-2" initialState)
  = [ mkBoxData "box-1" (mkGridRect 1 1 2 1) None None;
      mkBoxData "box-3" (mkGridRect 6 1 3 1) None None;
      mkBoxData "box-4" (mkGridRect 1 2 2 2) None None ].
Proof.
  split.
  - apply (proj1 (proj2 (proj2 (proj2 (proj2 (handleBoxDelete_effect "box-9" initialState)))))).
    intros Hin. cbn in Hin. set_solver.
  - vm_compute. reflexivity.
Defined.

Lemma undo_steps (N : nat) :
  forall st : State,
    cursor_in_range st -> Z.of_nat N <= historyIndex st ->
    exists st1 : State,
      repeatedly N handleUndo st = Some st1 /\
      history st1 = history st /\
      historyIndex st1 = historyIndex st - Z.of_nat N.
Proof.
  induction N as [|N IH]; intros st Hrange HN.
  - exists st. cbn. repeat split; lia.
  - destruct (handleUndo_in_range st Hrange) as (st' & Hun & Hrange' & Hhist & Hidx).
    cbn [repeatedly]. rewrite Hun.
    destruct (IH st' Hrange') as (st1 & Hrep & Hh1 & Hi1); [lia|].
    exists st1. split; [exact Hrep|]. split; [congruence|]. lia.
Qed.

Lemma redo_steps (N : nat) :
  forall st : State,
    cursor_in_range st ->
    historyIndex st + Z.of_nat N < Z.of_nat (length (history st)) ->
    exists st2 : State,
      repeatedly N handleRedo st = Some st2 /\
      history st2 = history st /\
      historyIndex st2 = historyIndex st + Z.of_nat N /\
      ((0 < N)%nat ->
       forall h, index (history st) (historyIndex st + Z.of_nat N) = Some h ->
         boxes st2 = HistoryState.boxes h /\
         selectedBoxIds st2 = HistoryState.selectedBoxIds h).
Proof.
  induction N as [|N IH]; intros st Hrange HN.
  - exists st. cbn. repeat split; try lia.
  - pose proof Hrange as [Hlo Hhi].
    assert (Hredo : exists h1, index (history st) (historyIndex st + 1) = Some h1 /\
              handleRedo st
              = Some {| boxes := HistoryState.boxes h1;
                        selectedBoxIds := HistoryState.selectedBoxIds h1;
                        history := history st;
                        historyIndex := historyIndex st + 1;
                        boxIdCounter := boxIdCounter st |}).
    { destruct (index_in_range (history st) (historyIndex st + 1)) as [h1 Hh1]; [lia|].
      exists h1. split; [exact Hh1|]. unfold handleRedo.
      destruct (Z.ltb_spec (historyIndex st) (Z.of_nat (length (history st)) - 1)); [|lia].
      now rewrite Hh1. }
    destruct Hredo as (h1 & Hh1 & Hredo).
    cbn [repeatedly]. rewrite Hredo.
    match goal with |- context [repeatedly N handleRedo ?s] => set (st' := s) end.
    destruct (IH st') as (st2 & Hrep & Hh2 & Hi2 & Hshow).
    { unfold cursor_in_range, st'. cbn [history historyIndex]. lia. }
    { unfold st'. cbn [history historyIndex]. lia. }
    exists st2. split; [exact Hrep|]. split; [exact Hh2|].
    split; [unfold st' in Hi2; cbn [historyIndex] in Hi2; lia|].
    intros _ h Hh. destruct N as [|N].
    + cbn in Hrep. injection Hrep as <-. unfold st'. cbn [boxes selectedBoxIds].
      replace (historyIndex st + Z.of_nat 1) with (historyIndex st + 1) in Hh by lia.
      rewrite Hh1 in Hh. injection Hh as <-. split; reflexivity.
    + apply Hshow; [lia|]. unfold st'. cbn [history historyIndex].
      replace (historyIndex st + 1 + Z.of_nat (S N))
        with (historyIndex st + Z.of_nat (S (S N))) by lia.
      exact Hh.
Qed.

(** X28.  [N] undos are undone by [N] redos: with at least [N] entries
    before the cursor, [N] undos move the cursor back by [N] without
    touching the history, and [N >= 1] redos after them put the cursor
    back and show the Layout and Selection of the snapshot it was on. *)
Theorem undos_then_redos (N : nat) (st : State) (h : HistoryState.t) :
  cursor_in_range st -> Z.of_nat N <= historyIndex st -> (0 < N)%nat ->
  index (history st) (historyIndex st) = Some h ->
  exists st1 st2 : State,
    repeatedly N handleUndo st = Some st1 /\
    historyIndex st1 = historyIndex st - Z.of_nat N /\
    repeatedly N handleRedo st1 = Some st2 /\
    history st2 = history st /\ historyIndex st2 = historyIndex st /\
    boxes st2 = HistoryState.boxes h /\
    selectedBoxIds st2 = HistoryState.selectedBoxIds h.
Proof.
  intros Hrange HN Hpos Hh. pose proof Hrange as [Hlo Hhi].
  destruct (undo_steps N st Hrange HN) as (st1 & Hun & Hh1 & Hi1).
  assert (Hrange1 : cursor_in_range st1).
  { unfold cursor_in_range. rewrite Hh1, Hi1. lia. }
  destruct (redo_steps N st1 Hrange1) as (st2 & Hre & Hh2 & Hi2 & Hshow).
  { rewrite Hh1, Hi1. lia. }
  exists st1, st2. split; [exact Hun|]. split; [exact Hi1|]. split; [exact Hre|].
  split; [congruence|]. split; [lia|].
  apply (Hshow Hpos). rewrite Hh1, Hi1.
  replace (historyIndex st - Z.of_nat N + Z.of_nat N) with (historyIndex st) by lia.
  exact Hh.
Qed.

Lemma undos_then_redos_witness :
  exists st1 st2 : State,
    repeatedly 2 handleUndo (handleAddBox (handleAddBox initialState)) = Some st1 /\
    historyIndex st1 = 0 /\
    repeatedly 2 handleRedo st1 = Some st2 /\
    boxes st2 = boxes (handleAddBox (handleAddBox initialState)).
Proof.
  destruct (undos_then_redos 2 (handleAddBox (handleAddBox initialState))
              (HistoryState.mk (boxes (handleAddBox (handleAddBox initialState))) ∅))
    as (st1 & st2 & Hun & Hi1 & Hre & _ & _ & Hb & _).
  - apply saveToHistory_in_range. vm_compute. split; [discriminate|reflexivity].
  - vm_compute. discriminate.
  - lia.
  - reflexivity.
  - exists st1, st2. repeat split; assumption.
Defined.

End HistorySteps.
